(** * ts-node: the swc transpiler adapter ([src/transpilers/swc.ts])

    A shallow embedding of the module that turns TypeScript compiler options
    into swc options, probes the swc instance for the newest supported
    target, validates the two option objects it builds, and dispatches
    [transpile] calls to one of them by file extension.

    Conventions of the embedding:
    - a value of type [T | undefined] is an [option T];
    - numeric enums of the host ([ts.ScriptTarget], [ts.ModuleKind],
      [ts.JsxEmit]) are integers, as the code compares them;
    - a call that may throw returns a [Result]; the computations of the module
      live in a small monad [M] that also records every call made to the
      swc instance, the way a recording test double would;
    - the swc instance is a deterministic function of its arguments. *)

From stdpp Require Import gmap strings list.
From Stdlib Require Import ZArith String Ascii Lia.

Open Scope string_scope.
Open Scope list_scope.
Open Scope stdpp_scope.
Open Scope Z_scope.

(** ** JavaScript values the module inspects *)

(** A thrown value, as far as the module looks at it: [e?.message].  An
    [Error] built by [new Error(m)] has [message = Some m]; [null],
    [undefined] and objects without a message have [None]. *)
Record Thrown := { message : option string }.

Definition newError (m : string) : Thrown := {| message := Some m |}.

(** ['...' + (e as Error)?.message]: string concatenation shows a missing
    message as the text [undefined]. *)
Definition messageText (e : Thrown) : string :=
  match message e with
  | Some m => m
  | None => "undefined"
  end.

Inductive Result (A : Type) : Type :=
| Ok (a : A)
| Throw (e : Thrown).
Arguments Ok {A} a.
Arguments Throw {A} e.

(** [x === n] for [x : number | undefined]. *)
Definition numEq (x : option Z) (n : Z) : bool :=
  match x with
  | Some v => Z.eqb v n
  | None => false
  end.

(** [x === s] for [x : string | undefined]. *)
Definition strEq (x : option string) (s : string) : bool :=
  match x with
  | Some v => String.eqb v s
  | None => false
  end.

(** [x === b] for [x : boolean | undefined]. *)
Definition boolEq (x : option bool) (b : bool) : bool :=
  match x with
  | Some v => Bool.eqb v b
  | None => false
  end.

(** [!x] for [x : boolean | undefined]: [undefined] is falsy. *)
Definition jsNot (x : option bool) : bool :=
  match x with
  | Some v => negb v
  | None => true
  end.

(** Truthiness of a string: only the empty string is falsy. *)
Definition truthy (s : string) : bool :=
  match s with
  | EmptyString => false
  | String _ _ => true
  end.

(** [x >= n] for [x : number | undefined]: [undefined] converts to [NaN],
    and every comparison with [NaN] is false. *)
Definition numGe (x : option Z) (n : Z) : bool :=
  match x with
  | Some v => Z.leb n v
  | None => false
  end.

(** [String.prototype.endsWith]: the last [length search] characters of [s]
    are compared with [search]; a [search] longer than [s] never matches.
    The searched suffixes of this module are ASCII, so code units and bytes
    agree on them. *)
Definition endsWith (s search : string) : bool :=
  let len := String.length s in
  let searchLength := String.length search in
  if Nat.ltb len searchLength then false
  else String.eqb (String.substring (len - searchLength) searchLength s) search.

(** [a[i]] on an array: [undefined] outside [0 .. length-1]. *)
Definition at_index {A} (a : list A) (i : Z) : option A :=
  if Z.ltb i 0 then None else a !! Z.to_nat i.

(** [Array.prototype.indexOf] on an array of strings: the first index
    holding the element, or [-1]. *)
Fixpoint indexOf_from (a : list string) (x : string) (i : Z) : Z :=
  match a with
  | [] => -1
  | y :: rest => if String.eqb y x then i else indexOf_from rest x (i + 1)
  end.

Definition indexOf (a : list string) (x : string) : Z := indexOf_from a x 0.

(** ** Options of the two sides *)

(** The fields of [ts.CompilerOptions] that [createSwcOptions] reads. *)
Module CompilerOptions.
Record t := {
  esModuleInterop : option bool;
  sourceMap : option bool;
  importHelpers : option bool;
  experimentalDecorators : option bool;
  emitDecoratorMetadata : option bool;
  target : option Z;
  module : option Z;
  jsx : option Z;
  jsxFactory : option string;
  jsxFragmentFactory : option string;
  strict : option bool;
  alwaysStrict : option bool;
  noImplicitUseStrict : option bool
}.
End CompilerOptions.

(** [swcTypes.Options], as far as [createVariant] fills it in. *)
Module ModuleConfig.
Record t := {
  noInterop : bool;
  type : string;
  strictMode : bool;
  ignoreDynamic : bool
}.
End ModuleConfig.

Module ParserConfig.
Record t := {
  syntax : string;
  tsx : bool;
  decorators : option bool;
  dynamicImport : bool;
  importAssertions : bool
}.
End ParserConfig.

Module ReactConfig.
Record t := {
  throwIfNamespace : bool;
  development : option bool;
  useBuiltins : bool;
  pragma : option string;
  pragmaFrag : option string;
  runtime : option string
}.
End ReactConfig.

Module TransformConfig.
Record t := {
  decoratorMetadata : option bool;
  legacyDecorator : bool;
  react : ReactConfig.t
}.
End TransformConfig.

Module ExperimentalConfig.
Record t := { keepImportAssertions : bool }.
End ExperimentalConfig.

Module JscConfig.
Record t := {
  externalHelpers : option bool;
  parser : ParserConfig.t;
  target : option string;
  transform : TransformConfig.t;
  keepClassNames : bool;
  experimental : ExperimentalConfig.t
}.
End JscConfig.

Module Options.
Record t := {
  sourceMaps : option bool;
  module : option ModuleConfig.t;
  swcrc : bool;
  jsc : JscConfig.t
}.
End Options.

(** The three object literals the module passes to [transformSync]. *)
Inductive TransformArg :=
| JscTargetOnly (target : option string)
    (* { jsc: { target } } *)
| FullOptions (swcOptions : Options.t)
    (* swcOptions *)
| WithFilename (swcOptions : Options.t) (filename : string).
    (* { ...swcOptions, filename } *)

(** What [transformSync] returns: [{ code, map }]. *)
Record Output := { code : string; map : option string }.

(** The swc instance ([typeof swcWasm]): the one operation the module uses. *)
Record SwcInstance := {
  transformSync : string -> TransformArg -> Result Output
}.

(** ** The computation monad: outcome plus the calls made to swc *)

Record Call := { call_input : string; call_options : TransformArg }.

Definition M (A : Type) : Type := (list Call * Result A)%type.

Definition ret {A} (a : A) : M A := ([], Ok a).

Definition throw {A} (e : Thrown) : M A := ([], Throw e).

Definition bind {A B} (k : A -> M B) (m : M A) : M B :=
  match m with
  | (calls, Ok a) => let '(calls', r) := k a in (calls ++ calls', r)
  | (calls, Throw e) => (calls, Throw e)
  end.

#[global] Instance M_ret : MRet M := @ret.
#[global] Instance M_bind : MBind M := @bind.

(** [try { m } catch (e) { handler e }] *)
Definition try_catch {A} (m : M A) (handler : Thrown -> M A) : M A :=
  match m with
  | (calls, Ok a) => (calls, Ok a)
  | (calls, Throw e) => let '(calls', r) := handler e in (calls ++ calls', r)
  end.

(** A call that may throw but does not reach swc. *)
Definition lift {A} (r : Result A) : M A := ([], r).

(** [swcInstance.transformSync(input, options)] *)
Definition call_transformSync (swcInstance : SwcInstance)
    (input : string) (options : TransformArg) : M Output :=
  ([{| call_input := input; call_options := options |}],
   transformSync swcInstance input options).

Definition calls_of {A} (m : M A) : list Call := fst m.
Definition outcome {A} (m : M A) : Result A := snd m.

(** ** The tables *)

(** [targetMapping]: [ts.ScriptTarget] to swc's target names. *)
Definition targetMapping : gmap Z string :=
  <[99 := "esnext"]>
  (<[9 := "es2022"]>
  (<[8 := "es2021"]>
  (<[7 := "es2020"]>
  (<[6 := "es2019"]>
  (<[5 := "es2018"]>
  (<[4 := "es2017"]>
  (<[3 := "es2016"]>
  (<[2 := "es2015"]>
  (<[1 := "es5"]>
  (<[0 := "es3"]> ∅)))))))))).

(** [targetMapping.get(target!)]: a [Map] has no entry for [undefined]. *)
Definition targetMapping_get (target : option Z) : option string :=
  match target with
  | Some t => targetMapping !! t
  | None => None
  end.

(** [swcTargets]: oldest first; the probe walks it downwards. *)
Definition swcTargets : list string :=
  [ "es3"; "es5"; "es2015"; "es2016"; "es2017"; "es2018";
    "es2019"; "es2020"; "es2021"; "es2022"; "esnext" ].

Module ModuleKind.
Definition None : Z := 0.
Definition CommonJS : Z := 1.
Definition AMD : Z := 2.
Definition UMD : Z := 3.
Definition System : Z := 4.
Definition ES2015 : Z := 5.
Definition ES2020 : Z := 6.
Definition ESNext : Z := 99.
Definition Node16 : Z := 100.
Definition NodeNext : Z := 199.
End ModuleKind.

Module JsxEmit.
Definition ReactJSX : Z := 4.
Definition ReactJSXDev : Z := 5.
End JsxEmit.

(** ** [createSwcOptions] *)

Definition nl : string := String "010"%char EmptyString.

(** The constants [createSwcOptions] derives from the compiler options, each
    as a function of the options it reads. *)

Definition keepClassNames (target : option Z) : bool :=
  numGe target 3.

Definition isNodeModuleKind (module : option Z) : bool :=
  numEq module ModuleKind.Node16 || numEq module ModuleKind.NodeNext.

Definition moduleType (module : option Z) (nodeModuleEmitKind : option string)
  : string :=
  if numEq module ModuleKind.CommonJS then "commonjs"
  else if numEq module ModuleKind.AMD then "amd"
  else if numEq module ModuleKind.UMD then "umd"
  else if isNodeModuleKind module && strEq nodeModuleEmitKind "nodecjs" then "commonjs"
  else if isNodeModuleKind module && strEq nodeModuleEmitKind "nodeesm" then "es6"
  else "es6".

Definition strictMode (strict alwaysStrict noImplicitUseStrict : option bool)
  : bool :=
  if (boolEq alwaysStrict false
      || (negb (boolEq alwaysStrict true) && negb (boolEq strict true)))
     && boolEq noImplicitUseStrict true
  then false
  else true.

Definition jsxRuntime (jsx : option Z) : option string :=
  if numEq jsx JsxEmit.ReactJSX || numEq jsx JsxEmit.ReactJSXDev
  then Some "automatic"
  else None.

Definition jsxDevelopment (jsx : option Z) : option bool :=
  if numEq jsx JsxEmit.ReactJSXDev then Some true else None.

(** The index the probing loop starts from:
    [swcTargets.indexOf(targetMapping.get(target!) ?? 'es3')]. *)
Definition requestedIndex (target : option Z) : Z :=
  let swcTarget := default "es3" (targetMapping_get target) in
  indexOf swcTargets swcTarget.

Section createSwcOptions.
Import CompilerOptions.

Variable compilerOptions : CompilerOptions.t.
Variable nodeModuleEmitKind : option string.
Variable swcInstance : SwcInstance.
Variable swcDepName : string.

(** The probing loop, [for (; swcTargetIndex >= 0; swcTargetIndex--)],
    by recursion on [swcTargetIndex + 1]: each round tries one target and
    leaves the loop on success; the loop ends with index [-1] when no
    round succeeded. *)
Fixpoint probe_down (rounds : nat) : M Z :=
  match rounds with
  | O => mret (-1)
  | S rounds' =>
      let swcTargetIndex := Z.of_nat rounds' in
      try_catch
        (_ ← call_transformSync swcInstance ""
               (JscTargetOnly (at_index swcTargets swcTargetIndex));
         mret swcTargetIndex)
        (fun _ => probe_down rounds')
  end.

Definition probe_loop (swcTargetIndex : Z) : M Z :=
  if Z.leb 0 swcTargetIndex
  then probe_down (Z.to_nat (swcTargetIndex + 1))
  else mret swcTargetIndex.

(** The index the loop ends with. *)
Definition probeTargetIndex (target : option Z) : M Z :=
  probe_loop (requestedIndex target).

(** The object literal of [createVariant]. *)
Definition swcOptions_literal (swcTarget : option string) (isTsx : bool)
  : Options.t :=
  {| Options.sourceMaps := sourceMap compilerOptions;
     Options.module :=
       (let moduleType := moduleType (module compilerOptions) nodeModuleEmitKind in
        if truthy moduleType
        then Some {| ModuleConfig.noInterop := jsNot (esModuleInterop compilerOptions);
                     ModuleConfig.type := moduleType;
                     ModuleConfig.strictMode :=
                       strictMode (strict compilerOptions)
                         (alwaysStrict compilerOptions)
                         (noImplicitUseStrict compilerOptions);
                     ModuleConfig.ignoreDynamic := strEq nodeModuleEmitKind "nodecjs" |}
        else None);
     Options.swcrc := false;
     Options.jsc :=
       {| JscConfig.externalHelpers := importHelpers compilerOptions;
          JscConfig.parser :=
            {| ParserConfig.syntax := "typescript";
               ParserConfig.tsx := isTsx;
               ParserConfig.decorators := experimentalDecorators compilerOptions;
               ParserConfig.dynamicImport := true;
               ParserConfig.importAssertions := true |};
          JscConfig.target := swcTarget;
          JscConfig.transform :=
            {| TransformConfig.decoratorMetadata := emitDecoratorMetadata compilerOptions;
               TransformConfig.legacyDecorator := true;
               TransformConfig.react :=
                 {| ReactConfig.throwIfNamespace := false;
                    ReactConfig.development := jsxDevelopment (jsx compilerOptions);
                    ReactConfig.useBuiltins := false;
                    ReactConfig.pragma := jsxFactory compilerOptions;
                    ReactConfig.pragmaFrag := jsxFragmentFactory compilerOptions;
                    ReactConfig.runtime := jsxRuntime (jsx compilerOptions) |} |};
          JscConfig.keepClassNames := keepClassNames (target compilerOptions);
          JscConfig.experimental :=
            {| ExperimentalConfig.keepImportAssertions := true |} |} |}.

(** The text of the error [createVariant] throws when swc rejects the
    options with [e]. *)
Definition validationMessage (e : Thrown) : string :=
  ((((swcDepName +:+ " threw an error when attempting to validate swc compiler options." +:+ nl)
     +:+ ("You may be using an old version of swc which does not support the options used by ts-node." +:+ nl))
    +:+ ("Try upgrading to the latest version of swc." +:+ nl))
   +:+ ("Error message from swc:" +:+ nl))
  +:+ messageText e.

Definition createVariant (swcTarget : option string) (isTsx : bool)
  : M Options.t :=
  let swcOptions := swcOptions_literal swcTarget isTsx in
  _ ← try_catch
        (_ ← call_transformSync swcInstance "" (FullOptions swcOptions);
         mret tt)
        (fun e => throw (newError (validationMessage e)));
  mret swcOptions.

Definition createSwcOptions : M (Options.t * Options.t) :=
  swcTargetIndex ← probeTargetIndex (target compilerOptions);
  let swcTarget := at_index swcTargets swcTargetIndex in
  nonTsxOptions ← createVariant swcTarget false;
  tsxOptions ← createVariant swcTarget true;
  mret (nonTsxOptions, tsxOptions).

End createSwcOptions.

(** ** [create] and [transpile] *)

Record TranspileOptions := { fileName : string }.

Record TranspileOutput := {
  outputText : string;
  sourceMapText : option string
}.

Record Transpiler := {
  transpile : string -> TranspileOptions -> M TranspileOutput
}.

(** [swc?: string | typeof swcWasm] *)
Inductive SwcOption :=
| SwcName (name : string)
| SwcGiven (instance : SwcInstance)
| SwcAbsent.

(** The fields of [SwcTranspilerOptions] that [create] reads;
    [config_options] is [service.config.options]. *)
Record SwcTranspilerOptions := {
  swc : SwcOption;
  config_options : CompilerOptions.t;
  transpilerConfigLocalResolveHelper : string -> bool -> Result string;
  nodeModuleEmitKind : option string
}.

Definition unresolvableMessage : string :=
  "swc compiler requires either @swc/core or @swc/wasm to be installed as a dependency.  See https://typestrong.org/ts-node/docs/transpilers".

Section create.

(** Node's [require], which may throw. *)
Variable require : string -> Result SwcInstance.

(** "Load swc compiler": the instance and the name used in diagnostics. *)
Definition loadSwc (createOptions : SwcTranspilerOptions)
  : M (SwcInstance * string) :=
  let resolve := transpilerConfigLocalResolveHelper createOptions in
  match swc createOptions with
  | SwcName name =>
      let swcDepName := name in
      swcResolved ← lift (resolve name true);
      swcInstance ← lift (require swcResolved);
      mret (swcInstance, swcDepName)
  | SwcAbsent =>
      '(swcDepName, swcResolved) ←
        try_catch
          (let swcDepName := "@swc/core" in
           swcResolved ← lift (resolve swcDepName true);
           mret (swcDepName, swcResolved))
          (fun _ =>
             try_catch
               (let swcDepName := "@swc/wasm" in
                swcResolved ← lift (resolve swcDepName true);
                mret (swcDepName, swcResolved))
               (fun _ => throw (newError unresolvableMessage)));
      swcInstance ← lift (require swcResolved);
      mret (swcInstance, swcDepName)
  | SwcGiven instance =>
      mret (instance, "swc")
  end.

(** The closure [transpile] of [create], with the variables it captures. *)
Definition transpile_with (swcInstance : SwcInstance)
    (nonTsxOptions tsxOptions : Options.t)
    (input : string) (transpileOptions : TranspileOptions)
  : M TranspileOutput :=
  let fileName := fileName transpileOptions in
  let swcOptions :=
    if endsWith fileName ".tsx" || endsWith fileName ".jsx"
    then tsxOptions
    else nonTsxOptions in
  out ← call_transformSync swcInstance input (WithFilename swcOptions fileName);
  mret {| outputText := code out; sourceMapText := map out |}.

Definition create (createOptions : SwcTranspilerOptions) : M Transpiler :=
  '(swcInstance, swcDepName) ← loadSwc createOptions;
  '(nonTsxOptions, tsxOptions) ←
    createSwcOptions (config_options createOptions)
      (nodeModuleEmitKind createOptions) swcInstance swcDepName;
  mret {| transpile := transpile_with swcInstance nonTsxOptions tsxOptions |}.

End create.

(** ** Predicates and abbreviations used in the statements *)

(** The trial compile of the probing loop succeeds for [target]. *)
Definition accepts (swcInstance : SwcInstance) (target : option string) : bool :=
  match transformSync swcInstance "" (JscTargetOnly target) with
  | Ok _ => true
  | Throw _ => false
  end.

Definition probe_call (swcTargetIndex : Z) : Call :=
  {| call_input := "";
     call_options := JscTargetOnly (at_index swcTargets swcTargetIndex) |}.

Definition validation_call (swcOptions : Options.t) : Call :=
  {| call_input := ""; call_options := FullOptions swcOptions |}.

(** The message of the validation error: the dependency name, the fixed
    advice, and the text of what swc threw. *)
Definition validationAdvice : string :=
  " threw an error when attempting to validate swc compiler options." +:+ nl
  +:+ "You may be using an old version of swc which does not support the options used by ts-node." +:+ nl
  +:+ "Try upgrading to the latest version of swc." +:+ nl
  +:+ "Error message from swc:" +:+ nl.

(** [s] contains [search] ([String.prototype.includes]). *)
Definition includes (s search : string) : Prop :=
  exists before after, s = before +:+ search +:+ after.

(** ** Synthetic inputs, for the examples *)

(** Compiler options with every field unset but [target] and [module]. *)
Definition options_of (target module : option Z) : CompilerOptions.t :=
  {| CompilerOptions.esModuleInterop := None;
     CompilerOptions.sourceMap := None;
     CompilerOptions.importHelpers := None;
     CompilerOptions.experimentalDecorators := None;
     CompilerOptions.emitDecoratorMetadata := None;
     CompilerOptions.target := target;
     CompilerOptions.module := module;
     CompilerOptions.jsx := None;
     CompilerOptions.jsxFactory := None;
     CompilerOptions.jsxFragmentFactory := None;
     CompilerOptions.strict := None;
     CompilerOptions.alwaysStrict := None;
     CompilerOptions.noImplicitUseStrict := None |}.

(** An instance that knows the targets [names] only, takes a full option
    object without markup parsing only when [plain_ok] and one with markup
    parsing only when [tsx_ok], and echoes its input. *)
Definition test_swc (names : list string) (plain_ok tsx_ok : bool)
  : SwcInstance :=
  {| transformSync := fun input options =>
       match options with
       | JscTargetOnly (Some name) =>
           if bool_decide (name ∈ names)
           then Ok {| code := ""; map := None |}
           else Throw (newError ("unknown target " +:+ name))
       | JscTargetOnly None => Throw (newError "missing target")
       | FullOptions swcOptions =>
           if ParserConfig.tsx (JscConfig.parser (Options.jsc swcOptions))
           then if tsx_ok
                then Ok {| code := ""; map := None |}
                else Throw (newError "tsx is not supported")
           else if plain_ok
                then Ok {| code := ""; map := None |}
                else Throw (newError "unknown option ignoreDynamic")
       | WithFilename swcOptions filename =>
           Ok {| code := input; map := Some filename |}
       end |}.

(** Resolvers and a [require] for the examples. *)
Definition resolve_nothing (name : string) (required : bool) : Result string :=
  Throw (newError ("Cannot find module '" +:+ name +:+ "'")).

Definition resolve_only_wasm (name : string) (required : bool) : Result string :=
  if String.eqb name "@swc/wasm"
  then Ok "/node_modules/@swc/wasm/wasm.js"
  else Throw (newError ("Cannot find module '" +:+ name +:+ "'")).

Definition require_test_swc (path : string) : Result SwcInstance :=
  Ok (test_swc swcTargets true true).

Definition createOptions_of (swc : SwcOption)
    (resolve : string -> bool -> Result string) : SwcTranspilerOptions :=
  {| swc := swc;
     config_options := options_of (Some 7) (Some ModuleKind.CommonJS);
     transpilerConfigLocalResolveHelper := resolve;
     nodeModuleEmitKind := None |}.

(** ** Further abbreviations and synthetic inputs *)

(** The indices [hi], [hi - 1], ... ([count] of them), the order in which the
    probing loop visits the table. *)
Fixpoint indices_down (hi : Z) (count : nat) : list Z :=
  match count with
  | O => []
  | S count' => hi :: indices_down (hi - 1) count'
  end.

(** A resolver that finds every package. *)
Definition resolve_everything (name : string) (required : bool) : Result string :=
  Ok ("/node_modules/" +:+ name).

(** A [require] that loads nothing, and one that loads [@swc/wasm] only. *)
Definition require_nothing (path : string) : Result SwcInstance :=
  Throw (newError ("Cannot load " +:+ path)).

Definition require_only_wasm (path : string) : Result SwcInstance :=
  if String.eqb path "/node_modules/@swc/wasm"
  then Ok (test_swc swcTargets true true)
  else Throw (newError ("Cannot load " +:+ path)).

(** An instance that knows every target, takes the plain option object, and
    rejects the markup one by throwing a value without a message. *)
Definition swc_throwing_no_message_on_tsx : SwcInstance :=
  {| transformSync := fun input options =>
       match options with
       | FullOptions swcOptions =>
           if ParserConfig.tsx (JscConfig.parser (Options.jsc swcOptions))
           then Throw {| message := None |}
           else Ok {| code := ""; map := None |}
       | _ => Ok {| code := ""; map := None |}
       end |}.

(** An instance that knows every target and rejects every full option object
    by throwing a value without a message. *)
Definition swc_throwing_no_message : SwcInstance :=
  {| transformSync := fun input options =>
       match options with
       | JscTargetOnly _ => Ok {| code := ""; map := None |}
       | _ => Throw {| message := None |}
       end |}.

(** * Properties *)

(** ** The derived constants *)

Lemma moduleType_values (module : option Z) (nodeModuleEmitKind : option string) :
  moduleType module nodeModuleEmitKind ∈ ["commonjs"; "amd"; "umd"; "es6"].
Proof.
  unfold moduleType.
  repeat match goal with |- context [if ?c then _ else _] => destruct c end;
    set_solver.
Qed.

Lemma moduleType_truthy (module : option Z) (nodeModuleEmitKind : option string) :
  truthy (moduleType module nodeModuleEmitKind) = true.
Proof.
  unfold moduleType.
  repeat match goal with |- context [if ?c then _ else _] => destruct c end;
    reflexivity.
Qed.

Lemma module_section_present compilerOptions nodeModuleEmitKind swcTarget isTsx :
  Options.module
    (swcOptions_literal compilerOptions nodeModuleEmitKind swcTarget isTsx)
  = Some
      {| ModuleConfig.noInterop :=
           jsNot (CompilerOptions.esModuleInterop compilerOptions);
         ModuleConfig.type :=
           moduleType (CompilerOptions.module compilerOptions) nodeModuleEmitKind;
         ModuleConfig.strictMode :=
           strictMode (CompilerOptions.strict compilerOptions)
             (CompilerOptions.alwaysStrict compilerOptions)
             (CompilerOptions.noImplicitUseStrict compilerOptions);
         ModuleConfig.ignoreDynamic := strEq nodeModuleEmitKind "nodecjs" |}.
Proof.
  unfold swcOptions_literal; cbn.
  by rewrite moduleType_truthy.
Qed.

(** C1: the derived strict-mode flag is false exactly when ([alwaysStrict] is
    explicitly false, or [alwaysStrict] is unset and [strict] is not true) and
    [noImplicitUseStrict] is explicitly true; in every other combination of
    the three tri-state flags it is true.  The flag is the one both produced
    option objects carry in their module section. *)
Theorem strictMode_tri_state (strict alwaysStrict noImplicitUseStrict : option bool) :
  let suppressed :=
    (alwaysStrict = Some false \/ (alwaysStrict = None /\ strict <> Some true))
    /\ noImplicitUseStrict = Some true in
  (strictMode strict alwaysStrict noImplicitUseStrict = false <-> suppressed)
  /\ (strictMode strict alwaysStrict noImplicitUseStrict = true <-> ~ suppressed)
  /\ (forall compilerOptions nodeModuleEmitKind swcTarget isTsx,
        ModuleConfig.strictMode <$>
          Options.module
            (swcOptions_literal compilerOptions nodeModuleEmitKind swcTarget isTsx)
        = Some (strictMode (CompilerOptions.strict compilerOptions)
                  (CompilerOptions.alwaysStrict compilerOptions)
                  (CompilerOptions.noImplicitUseStrict compilerOptions))).
Proof.
  cbv zeta. split; [|split].
  - destruct alwaysStrict as [[]|], strict as [[]|], noImplicitUseStrict as [[]|];
      cbn; intuition congruence.
  - destruct alwaysStrict as [[]|], strict as [[]|], noImplicitUseStrict as [[]|];
      cbn; intuition congruence.
  - intros. by rewrite module_section_present.
Qed.

(** C3: CommonJS, AMD and UMD map to [commonjs], [amd] and [umd]; Node16 and
    NodeNext map to [commonjs] when the emit kind is [nodecjs], and to [es6]
    when it is [nodeesm] or unset; the mapped name is the [type] of the module
    section of every option object built. *)
Theorem moduleType_mapping :
  (forall nodeModuleEmitKind,
      moduleType (Some ModuleKind.CommonJS) nodeModuleEmitKind = "commonjs"
      /\ moduleType (Some ModuleKind.AMD) nodeModuleEmitKind = "amd"
      /\ moduleType (Some ModuleKind.UMD) nodeModuleEmitKind = "umd")
  /\ moduleType (Some ModuleKind.Node16) (Some "nodecjs") = "commonjs"
  /\ moduleType (Some ModuleKind.NodeNext) (Some "nodecjs") = "commonjs"
  /\ moduleType (Some ModuleKind.Node16) (Some "nodeesm") = "es6"
  /\ moduleType (Some ModuleKind.NodeNext) (Some "nodeesm") = "es6"
  /\ moduleType (Some ModuleKind.Node16) None = "es6"
  /\ moduleType (Some ModuleKind.NodeNext) None = "es6"
  /\ (forall compilerOptions nodeModuleEmitKind swcTarget isTsx,
        ModuleConfig.type <$>
          Options.module
            (swcOptions_literal compilerOptions nodeModuleEmitKind swcTarget isTsx)
        = Some (moduleType (CompilerOptions.module compilerOptions)
                  nodeModuleEmitKind)).
Proof.
  split; [intros; repeat split; reflexivity|].
  do 6 (split; [reflexivity|]).
  intros. by rewrite module_section_present.
Qed.

Lemma numEq_true (x : option Z) (n : Z) : numEq x n = true <-> x = Some n.
Proof.
  destruct x as [v|]; cbn; [|naive_solver].
  rewrite Z.eqb_eq. naive_solver.
Qed.

Lemma strEq_true (x : option string) (s : string) : strEq x s = true <-> x = Some s.
Proof.
  destruct x as [v|]; cbn; [|naive_solver].
  rewrite String.eqb_eq. naive_solver.
Qed.

Lemma isNodeModuleKind_true (module : option Z) :
  isNodeModuleKind module = true
  <-> module = Some ModuleKind.Node16 \/ module = Some ModuleKind.NodeNext.
Proof.
  unfold isNodeModuleKind.
  rewrite orb_true_iff, !numEq_true. reflexivity.
Qed.

Lemma moduleType_es6 (module : option Z) (nodeModuleEmitKind : option string) :
  moduleType module nodeModuleEmitKind = "es6"
  <-> ~ (module = Some ModuleKind.CommonJS
         \/ module = Some ModuleKind.AMD
         \/ module = Some ModuleKind.UMD
         \/ ((module = Some ModuleKind.Node16 \/ module = Some ModuleKind.NodeNext)
             /\ nodeModuleEmitKind = Some "nodecjs")).
Proof.
  rewrite <- isNodeModuleKind_true, <- !numEq_true, <- strEq_true.
  unfold moduleType.
  destruct (numEq module ModuleKind.CommonJS); [intuition congruence|].
  destruct (numEq module ModuleKind.AMD); [intuition congruence|].
  destruct (numEq module ModuleKind.UMD); [intuition congruence|].
  destruct (isNodeModuleKind module), (strEq nodeModuleEmitKind "nodecjs");
    cbn; try destruct (strEq nodeModuleEmitKind "nodeesm");
    intuition congruence.
Qed.

(** C10: for every host module kind and emit kind the backend module type
    is one of the four non-empty names, it is [es6] for every kind that is not
    mapped to [commonjs], [amd] or [umd], and so the module section of every
    produced option object is present. *)
Theorem moduleType_always_defined (module : option Z) (nodeModuleEmitKind : option string) :
  moduleType module nodeModuleEmitKind ∈ ["commonjs"; "amd"; "umd"; "es6"]
  /\ truthy (moduleType module nodeModuleEmitKind) = true
  /\ (moduleType module nodeModuleEmitKind = "es6"
      <-> ~ (module = Some ModuleKind.CommonJS
             \/ module = Some ModuleKind.AMD
             \/ module = Some ModuleKind.UMD
             \/ ((module = Some ModuleKind.Node16 \/ module = Some ModuleKind.NodeNext)
                 /\ nodeModuleEmitKind = Some "nodecjs")))
  /\ moduleType None nodeModuleEmitKind = "es6"
  /\ moduleType (Some ModuleKind.None) nodeModuleEmitKind = "es6"
  /\ moduleType (Some ModuleKind.System) nodeModuleEmitKind = "es6"
  /\ moduleType (Some ModuleKind.ES2015) nodeModuleEmitKind = "es6"
  /\ moduleType (Some ModuleKind.ES2020) nodeModuleEmitKind = "es6"
  /\ moduleType (Some ModuleKind.ESNext) nodeModuleEmitKind = "es6"
  /\ moduleType (Some ModuleKind.Node16) None = "es6"
  /\ moduleType (Some ModuleKind.NodeNext) None = "es6"
  /\ (forall compilerOptions swcTarget isTsx,
        exists section,
          Options.module
            (swcOptions_literal compilerOptions nodeModuleEmitKind swcTarget isTsx)
          = Some section
          /\ ModuleConfig.type section
             = moduleType (CompilerOptions.module compilerOptions)
                 nodeModuleEmitKind).
Proof.
  split; [apply moduleType_values|].
  split; [apply moduleType_truthy|].
  split; [apply moduleType_es6|].
  repeat (split; [reflexivity|]).
  intros compilerOptions swcTarget isTsx.
  eexists. split; [apply module_section_present|]. reflexivity.
Qed.

(** [ignoreDynamic] follows the emit kind alone, whatever the module kind. *)
Lemma ignoreDynamic_value compilerOptions nodeModuleEmitKind swcTarget isTsx :
  ModuleConfig.ignoreDynamic <$>
    Options.module
      (swcOptions_literal compilerOptions nodeModuleEmitKind swcTarget isTsx)
  = Some (strEq nodeModuleEmitKind "nodecjs").
Proof. by rewrite module_section_present. Qed.

(** C4, at the input where the code departs from it: the host module kind
    is explicitly CommonJS (not a Node kind), so [commonjs] is chosen by the
    first branch of [moduleType], and yet the emit kind [nodecjs] sets
    [ignoreDynamic]. *)
Theorem ignoreDynamic_set_for_explicit_CommonJS :
  isNodeModuleKind (Some ModuleKind.CommonJS) = false
  /\ moduleType (Some ModuleKind.CommonJS) None = "commonjs"
  /\ moduleType (Some ModuleKind.CommonJS) (Some "nodecjs") = "commonjs"
  /\ Options.module
       (swcOptions_literal (options_of (Some 7) (Some ModuleKind.CommonJS))
          (Some "nodecjs") (Some "es2020") false)
     = Some {| ModuleConfig.noInterop := true;
               ModuleConfig.type := "commonjs";
               ModuleConfig.strictMode := true;
               ModuleConfig.ignoreDynamic := true |}.
Proof. repeat split; reflexivity. Qed.

(** ** The probing loop *)

Lemma probe_down_succ (swcInstance : SwcInstance) (rounds : nat) :
  probe_down swcInstance (S rounds)
  = if accepts swcInstance (at_index swcTargets (Z.of_nat rounds))
    then ([probe_call (Z.of_nat rounds)], Ok (Z.of_nat rounds))
    else (probe_call (Z.of_nat rounds) :: calls_of (probe_down swcInstance rounds),
          outcome (probe_down swcInstance rounds)).
Proof.
  unfold accepts. cbn [probe_down].
  unfold call_transformSync, try_catch, mbind, M_bind, bind, mret, M_ret, ret.
  destruct (transformSync swcInstance "" _); cbn; [reflexivity|].
  by destruct (probe_down swcInstance rounds).
Qed.

(** What the loop started with [rounds] candidates returns: the greatest
    accepted index below [rounds], or [-1] when there is none; it never
    throws, and it has called swc once for every index it passed. *)
Lemma probe_down_result (swcInstance : SwcInstance) (rounds : nat) :
  exists r,
    outcome (probe_down swcInstance rounds) = Ok r
    /\ -1 <= r < Z.of_nat rounds
    /\ (0 <= r -> accepts swcInstance (at_index swcTargets r) = true)
    /\ (forall i, r < i < Z.of_nat rounds ->
          accepts swcInstance (at_index swcTargets i) = false)
    /\ Z.of_nat (List.length (calls_of (probe_down swcInstance rounds)))
       = Z.of_nat rounds - Z.max r 0.
Proof.
  induction rounds as [|rounds IH].
  - exists (-1). cbn. repeat split; lia.
  - rewrite probe_down_succ.
    destruct (accepts swcInstance (at_index swcTargets (Z.of_nat rounds))) eqn:Hacc.
    + exists (Z.of_nat rounds). cbn [outcome calls_of fst snd List.length].
      split; [done|]. split; [lia|]. split; [done|]. split; [|lia].
      intros i Hi. lia.
    + destruct IH as (r & Hr & Hrange & Hok & Hrej & Hlen).
      exists r. cbn [outcome calls_of fst snd List.length].
      split; [done|]. split; [lia|]. split; [done|]. split.
      * intros i Hi.
        destruct (decide (i = Z.of_nat rounds)) as [->|]; [done|].
        apply Hrej. lia.
      * lia.
Qed.

Lemma swcTargets_at (i : Z) :
  0 <= i <= 10 -> exists name, at_index swcTargets i = Some name.
Proof.
  intros Hi. unfold at_index.
  destruct (Z.ltb_spec i 0) as [|_]; [lia|].
  apply lookup_lt_is_Some. cbn. lia.
Qed.

Lemma targetMapping_values (t : Z) (name : string) :
  targetMapping !! t = Some name -> name ∈ swcTargets.
Proof.
  unfold targetMapping, swcTargets.
  repeat (rewrite lookup_insert; case_decide; [intros [= <-]; set_solver|]).
  by rewrite lookup_empty.
Qed.

(** The loop starts inside the table, at the entry the requested level
    maps to ([es3] for a level without a mapping). *)
Lemma requestedIndex_spec (target : option Z) :
  0 <= requestedIndex target <= 10
  /\ at_index swcTargets (requestedIndex target)
     = Some (default "es3" (targetMapping_get target)).
Proof.
  assert (Hin : default "es3" (targetMapping_get target) ∈ swcTargets).
  { destruct target as [t|]; cbn; [|set_solver].
    destruct (targetMapping !! t) as [name|] eqn:E; cbn; [|set_solver].
    by eapply targetMapping_values. }
  unfold requestedIndex.
  generalize dependent (default "es3" (targetMapping_get target)).
  intros name Hin. unfold swcTargets in Hin.
  repeat (apply elem_of_cons in Hin as [->|Hin]; [by vm_compute|]).
  by apply elem_of_nil in Hin.
Qed.

Lemma probeTargetIndex_result (swcInstance : SwcInstance) (target : option Z) :
  exists r,
    outcome (probeTargetIndex swcInstance target) = Ok r
    /\ -1 <= r <= requestedIndex target
    /\ (0 <= r -> accepts swcInstance (at_index swcTargets r) = true)
    /\ (forall i, r < i <= requestedIndex target ->
          accepts swcInstance (at_index swcTargets i) = false)
    /\ Z.of_nat (List.length (calls_of (probeTargetIndex swcInstance target)))
       = requestedIndex target + 1 - Z.max r 0.
Proof.
  destruct (requestedIndex_spec target) as [Hrange _].
  unfold probeTargetIndex, probe_loop.
  destruct (Z.leb_spec 0 (requestedIndex target)) as [_|]; [|lia].
  destruct (probe_down_result swcInstance (Z.to_nat (requestedIndex target + 1)))
    as (r & Hr & Hr_range & Hok & Hrej & Hlen).
  exists r. split; [done|]. split; [lia|]. split; [done|]. split.
  - intros i Hi. apply Hrej. lia.
  - lia.
Qed.

(** ** [createVariant] and [createSwcOptions], step by step *)

Lemma createVariant_run compilerOptions nodeModuleEmitKind swcInstance swcDepName
    swcTarget isTsx :
  let swcOptions :=
    swcOptions_literal compilerOptions nodeModuleEmitKind swcTarget isTsx in
  createVariant compilerOptions nodeModuleEmitKind swcInstance swcDepName
    swcTarget isTsx
  = ([validation_call swcOptions],
     match transformSync swcInstance "" (FullOptions swcOptions) with
     | Ok _ => Ok swcOptions
     | Throw e => Throw (newError (validationMessage swcDepName e))
     end).
Proof.
  cbv zeta.
  unfold createVariant, call_transformSync, try_catch, throw, validation_call,
    mbind, M_bind, bind, mret, M_ret, ret.
  by destruct (transformSync swcInstance "" _).
Qed.

(** The whole of [createSwcOptions] once the probe has ended with index [r]:
    the plain object is validated first, the markup object second, and the
    first rejection is what the function throws. *)
Lemma createSwcOptions_run compilerOptions nodeModuleEmitKind swcInstance
    swcDepName r :
  outcome (probeTargetIndex swcInstance (CompilerOptions.target compilerOptions))
  = Ok r ->
  let probes :=
    calls_of (probeTargetIndex swcInstance (CompilerOptions.target compilerOptions)) in
  let variant :=
    swcOptions_literal compilerOptions nodeModuleEmitKind (at_index swcTargets r) in
  createSwcOptions compilerOptions nodeModuleEmitKind swcInstance swcDepName
  = match transformSync swcInstance "" (FullOptions (variant false)) with
    | Throw e =>
        (probes ++ [validation_call (variant false)],
         Throw (newError (validationMessage swcDepName e)))
    | Ok _ =>
        match transformSync swcInstance "" (FullOptions (variant true)) with
        | Throw e =>
            (probes ++ [validation_call (variant false);
                        validation_call (variant true)],
             Throw (newError (validationMessage swcDepName e)))
        | Ok _ =>
            (probes ++ [validation_call (variant false);
                        validation_call (variant true)],
             Ok (variant false, variant true))
        end
    end.
Proof.
  intros Hr. cbv zeta. unfold createSwcOptions.
  destruct (probeTargetIndex swcInstance (CompilerOptions.target compilerOptions))
    as [probes [r'|e]] eqn:Hprobe; cbn in Hr; [|done].
  injection Hr as ->.
  cbn [calls_of fst]. unfold mbind, M_bind. cbn [bind].
  rewrite !createVariant_run. cbn [bind].
  destruct (transformSync swcInstance "" (FullOptions (swcOptions_literal _ _ _ false)));
    [|reflexivity].
  destruct (transformSync swcInstance "" (FullOptions (swcOptions_literal _ _ _ true)));
    cbn; reflexivity.
Qed.

Lemma createSwcOptions_inv compilerOptions nodeModuleEmitKind swcInstance
    swcDepName calls nonTsxOptions tsxOptions :
  createSwcOptions compilerOptions nodeModuleEmitKind swcInstance swcDepName
  = (calls, Ok (nonTsxOptions, tsxOptions)) ->
  exists r,
    outcome (probeTargetIndex swcInstance (CompilerOptions.target compilerOptions))
    = Ok r
    /\ nonTsxOptions
       = swcOptions_literal compilerOptions nodeModuleEmitKind
           (at_index swcTargets r) false
    /\ tsxOptions
       = swcOptions_literal compilerOptions nodeModuleEmitKind
           (at_index swcTargets r) true.
Proof.
  destruct (probeTargetIndex_result swcInstance
              (CompilerOptions.target compilerOptions)) as (r & Hr & _).
  rewrite (createSwcOptions_run _ _ _ _ _ Hr). cbv zeta.
  intros H. exists r. split; [done|].
  destruct (transformSync swcInstance "" (FullOptions (swcOptions_literal _ _ _ false)));
    [|done].
  destruct (transformSync swcInstance "" (FullOptions (swcOptions_literal _ _ _ true)));
    [|done].
  by injection H as _ -> ->.
Qed.

(** ** Strings *)

Lemma append_cons (a : ascii) (s t : string) :
  String a s +:+ t = String a (s +:+ t).
Proof. reflexivity. Qed.

Lemma append_assoc (s t u : string) : (s +:+ t) +:+ u = s +:+ (t +:+ u).
Proof.
  induction s as [|a s IH]; [reflexivity|].
  by rewrite !append_cons, IH.
Qed.

Lemma length_append (s t : string) :
  String.length (s +:+ t) = (String.length s + String.length t)%nat.
Proof.
  induction s as [|a s IH]; [reflexivity|].
  rewrite append_cons. cbn [String.length]. by rewrite IH.
Qed.

Lemma validationMessage_shape (swcDepName : string) (e : Thrown) :
  validationMessage swcDepName e
  = swcDepName +:+ validationAdvice +:+ messageText e.
Proof.
  unfold validationMessage, validationAdvice.
  by rewrite !append_assoc.
Qed.

(** ** The probe selects the newest supported target *)

(** C2: when swc accepts some table entry [j] at or below the entry the
    requested level maps to ([es3] when the level has no mapping), the probe
    ends at an index [r] inside the table whose entry swc accepts, no entry
    between [r] and the mapped entry is accepted (so [r] is the greatest
    accepted one, and [j <= r]), [r] does not exceed the mapped entry, and
    every option object [createSwcOptions] returns carries that entry as its
    target. *)
Theorem probe_selects_greatest_supported
    (swcInstance : SwcInstance) (target : option Z) (j : Z) :
  0 <= j <= requestedIndex target ->
  accepts swcInstance (at_index swcTargets j) = true ->
  exists r name,
    outcome (probeTargetIndex swcInstance target) = Ok r
    /\ at_index swcTargets r = Some name
    /\ at_index swcTargets (requestedIndex target)
       = Some (default "es3" (targetMapping_get target))
    /\ j <= r <= requestedIndex target
    /\ accepts swcInstance (Some name) = true
    /\ (forall i, r < i <= requestedIndex target ->
          accepts swcInstance (at_index swcTargets i) = false)
    /\ (forall compilerOptions nodeModuleEmitKind swcDepName
               calls nonTsxOptions tsxOptions,
          CompilerOptions.target compilerOptions = target ->
          createSwcOptions compilerOptions nodeModuleEmitKind swcInstance swcDepName
          = (calls, Ok (nonTsxOptions, tsxOptions)) ->
          JscConfig.target (Options.jsc nonTsxOptions) = Some name
          /\ JscConfig.target (Options.jsc tsxOptions) = Some name).
Proof.
  intros Hj Hacc.
  destruct (requestedIndex_spec target) as [Hrange Hmapped].
  destruct (probeTargetIndex_result swcInstance target)
    as (r & Hr & Hr_range & Hok & Hrej & _).
  assert (j <= r) as Hjr.
  { destruct (Z_le_gt_dec j r) as [|Hgt]; [done|].
    rewrite Hrej in Hacc by lia. done. }
  destruct (swcTargets_at r) as [name Hname]; [lia|].
  exists r, name.
  split; [done|]. split; [done|]. split; [done|]. split; [lia|].
  split; [rewrite <- Hname; apply Hok; lia|]. split; [done|].
  intros compilerOptions nodeModuleEmitKind swcDepName calls non tsx <- Hrun.
  apply createSwcOptions_inv in Hrun as (r' & Hr' & -> & ->).
  rewrite Hr in Hr'. injection Hr' as <-.
  by cbn.
Qed.

Lemma probe_selects_greatest_supported_witness :
  0 <= 3 <= requestedIndex (Some 7)
  /\ accepts (test_swc ["es3"; "es5"; "es2015"; "es2016"] true true)
       (at_index swcTargets 3) = true
  /\ exists r name,
       outcome (probeTargetIndex
                  (test_swc ["es3"; "es5"; "es2015"; "es2016"] true true) (Some 7))
       = Ok r
       /\ at_index swcTargets r = Some name
       /\ at_index swcTargets (requestedIndex (Some 7))
          = Some (default "es3" (targetMapping_get (Some 7)))
       /\ 3 <= r <= requestedIndex (Some 7)
       /\ accepts (test_swc ["es3"; "es5"; "es2015"; "es2016"] true true) (Some name)
          = true
       /\ (forall i, r < i <= requestedIndex (Some 7) ->
             accepts (test_swc ["es3"; "es5"; "es2015"; "es2016"] true true)
               (at_index swcTargets i) = false)
       /\ (forall compilerOptions nodeModuleEmitKind swcDepName
                  calls nonTsxOptions tsxOptions,
             CompilerOptions.target compilerOptions = Some 7 ->
             createSwcOptions compilerOptions nodeModuleEmitKind
               (test_swc ["es3"; "es5"; "es2015"; "es2016"] true true) swcDepName
             = (calls, Ok (nonTsxOptions, tsxOptions)) ->
             JscConfig.target (Options.jsc nonTsxOptions) = Some name
             /\ JscConfig.target (Options.jsc tsxOptions) = Some name).
Proof.
  assert (H1 : 0 <= 3 <= requestedIndex (Some 7)).
  { replace (requestedIndex (Some 7)) with 7 by reflexivity. lia. }
  assert (H2 : accepts (test_swc ["es3"; "es5"; "es2015"; "es2016"] true true)
                 (at_index swcTargets 3) = true) by reflexivity.
  split; [exact H1|]. split; [exact H2|].
  exact (probe_selects_greatest_supported _ (Some 7) 3 H1 H2).
Defined.

Example probe_downgrades_es2020_to_es2016 :
  outcome (probeTargetIndex (test_swc ["es3"; "es5"; "es2015"; "es2016"] true true) (Some 7))
  = Ok 3
  /\ at_index swcTargets 3 = Some "es2016"
  /\ calls_of (probeTargetIndex (test_swc ["es3"; "es5"; "es2015"; "es2016"] true true) (Some 7))
     = [probe_call 7; probe_call 6; probe_call 5; probe_call 4; probe_call 3].
Proof. by vm_compute. Qed.

Example probe_unmapped_level_starts_at_es3 :
  requestedIndex None = 0 /\ requestedIndex (Some 42) = 0
  /\ requestedIndex (Some 99) = 10.
Proof. by vm_compute. Qed.

(** C9: when swc rejects every candidate from the mapped entry down to the
    oldest one, the probe has tried them all, it ends with index [-1] without
    throwing, and the table has no entry there, so the selected target is
    undefined; [createSwcOptions] goes on to build and validate its two
    objects with that undefined target, and returns them when swc lets them
    pass. *)
Theorem probe_exhausted_selects_undefined
    (swcInstance : SwcInstance) (target : option Z) :
  (forall i, 0 <= i <= requestedIndex target ->
     accepts swcInstance (at_index swcTargets i) = false) ->
  outcome (probeTargetIndex swcInstance target) = Ok (-1)
  /\ at_index swcTargets (-1) = None
  /\ Z.of_nat (List.length (calls_of (probeTargetIndex swcInstance target)))
     = requestedIndex target + 1
  /\ (forall compilerOptions nodeModuleEmitKind swcDepName,
        CompilerOptions.target compilerOptions = target ->
        let variant := swcOptions_literal compilerOptions nodeModuleEmitKind None in
        JscConfig.target (Options.jsc (variant false)) = None
        /\ JscConfig.target (Options.jsc (variant true)) = None
        /\ (forall calls nonTsxOptions tsxOptions,
              createSwcOptions compilerOptions nodeModuleEmitKind swcInstance
                swcDepName
              = (calls, Ok (nonTsxOptions, tsxOptions)) ->
              nonTsxOptions = variant false /\ tsxOptions = variant true)
        /\ (forall out out',
              transformSync swcInstance "" (FullOptions (variant false)) = Ok out ->
              transformSync swcInstance "" (FullOptions (variant true)) = Ok out' ->
              outcome (createSwcOptions compilerOptions nodeModuleEmitKind
                         swcInstance swcDepName)
              = Ok (variant false, variant true))).
Proof.
  intros Hrej.
  destruct (probeTargetIndex_result swcInstance target)
    as (r & Hr & Hr_range & Hok & _ & Hlen).
  assert (r = -1) as ->.
  { destruct (Z_le_gt_dec 0 r) as [Hpos|]; [|lia].
    rewrite Hrej in Hok by lia. specialize (Hok Hpos). done. }
  split; [done|]. split; [reflexivity|]. split; [lia|].
  intros compilerOptions nodeModuleEmitKind swcDepName <-. cbv zeta.
  split; [reflexivity|]. split; [reflexivity|]. split.
  - intros calls non tsx Hrun.
    apply createSwcOptions_inv in Hrun as (r' & Hr' & -> & ->).
    rewrite Hr in Hr'. by injection Hr' as <-.
  - intros out out' Hplain Htsx.
    rewrite (createSwcOptions_run _ _ _ _ _ Hr). cbv zeta.
    change (at_index swcTargets (-1)) with (@None string).
    by rewrite Hplain, Htsx.
Qed.

Lemma probe_exhausted_selects_undefined_witness :
  (forall i, 0 <= i <= requestedIndex (Some 7) ->
     accepts (test_swc [] true true) (at_index swcTargets i) = false)
  /\ outcome (probeTargetIndex (test_swc [] true true) (Some 7)) = Ok (-1)
  /\ outcome (createSwcOptions (options_of (Some 7) (Some ModuleKind.CommonJS))
                None (test_swc [] true true) "swc")
     = Ok (swcOptions_literal (options_of (Some 7) (Some ModuleKind.CommonJS))
             None None false,
           swcOptions_literal (options_of (Some 7) (Some ModuleKind.CommonJS))
             None None true).
Proof.
  assert (H : forall i, 0 <= i <= requestedIndex (Some 7) ->
                accepts (test_swc [] true true) (at_index swcTargets i) = false).
  { intros i _. unfold accepts. cbn.
    destruct (at_index swcTargets i); reflexivity. }
  destruct (probe_exhausted_selects_undefined (test_swc [] true true) (Some 7) H)
    as (Hprobe & _ & _ & Hcreate).
  split; [exact H|]. split; [exact Hprobe|].
  destruct (Hcreate (options_of (Some 7) (Some ModuleKind.CommonJS)) None "swc"
              eq_refl) as (_ & _ & _ & Hok).
  exact (Hok _ _ eq_refl eq_refl).
Defined.

(** ** The two variants *)

(** C6: the two objects [createSwcOptions] returns agree on every field but
    the [tsx] flag of the parser configuration, which is off in the plain
    object and on in the markup object. *)
Theorem variants_differ_only_in_tsx compilerOptions nodeModuleEmitKind
    swcInstance swcDepName calls nonTsxOptions tsxOptions :
  createSwcOptions compilerOptions nodeModuleEmitKind swcInstance swcDepName
  = (calls, Ok (nonTsxOptions, tsxOptions)) ->
  Options.sourceMaps nonTsxOptions = Options.sourceMaps tsxOptions
  /\ Options.module nonTsxOptions = Options.module tsxOptions
  /\ Options.swcrc nonTsxOptions = Options.swcrc tsxOptions
  /\ (let plain := Options.jsc nonTsxOptions in
      let markup := Options.jsc tsxOptions in
      JscConfig.externalHelpers plain = JscConfig.externalHelpers markup
      /\ JscConfig.target plain = JscConfig.target markup
      /\ JscConfig.transform plain = JscConfig.transform markup
      /\ JscConfig.keepClassNames plain = JscConfig.keepClassNames markup
      /\ JscConfig.experimental plain = JscConfig.experimental markup
      /\ ParserConfig.syntax (JscConfig.parser plain)
         = ParserConfig.syntax (JscConfig.parser markup)
      /\ ParserConfig.decorators (JscConfig.parser plain)
         = ParserConfig.decorators (JscConfig.parser markup)
      /\ ParserConfig.dynamicImport (JscConfig.parser plain)
         = ParserConfig.dynamicImport (JscConfig.parser markup)
      /\ ParserConfig.importAssertions (JscConfig.parser plain)
         = ParserConfig.importAssertions (JscConfig.parser markup)
      /\ ParserConfig.tsx (JscConfig.parser plain) = false
      /\ ParserConfig.tsx (JscConfig.parser markup) = true).
Proof.
  intros Hrun.
  apply createSwcOptions_inv in Hrun as (r & _ & -> & ->).
  cbv zeta. repeat split; reflexivity.
Qed.

Lemma variants_differ_only_in_tsx_witness :
  let compilerOptions := options_of (Some 7) (Some ModuleKind.NodeNext) in
  let swcInstance := test_swc swcTargets true true in
  let nonTsxOptions :=
    swcOptions_literal compilerOptions (Some "nodecjs") (Some "es2020") false in
  let tsxOptions :=
    swcOptions_literal compilerOptions (Some "nodecjs") (Some "es2020") true in
  createSwcOptions compilerOptions (Some "nodecjs") swcInstance "@swc/core"
  = ([probe_call 7; validation_call nonTsxOptions; validation_call tsxOptions],
     Ok (nonTsxOptions, tsxOptions))
  /\ Options.module nonTsxOptions = Options.module tsxOptions
  /\ JscConfig.target (Options.jsc nonTsxOptions)
     = JscConfig.target (Options.jsc tsxOptions)
  /\ ParserConfig.tsx (JscConfig.parser (Options.jsc nonTsxOptions)) = false
  /\ ParserConfig.tsx (JscConfig.parser (Options.jsc tsxOptions)) = true.
Proof.
  cbv zeta.
  assert (H : createSwcOptions (options_of (Some 7) (Some ModuleKind.NodeNext))
                (Some "nodecjs") (test_swc swcTargets true true) "@swc/core"
              = ([probe_call 7;
                  validation_call
                    (swcOptions_literal
                       (options_of (Some 7) (Some ModuleKind.NodeNext))
                       (Some "nodecjs") (Some "es2020") false);
                  validation_call
                    (swcOptions_literal
                       (options_of (Some 7) (Some ModuleKind.NodeNext))
                       (Some "nodecjs") (Some "es2020") true)],
                 Ok (swcOptions_literal
                       (options_of (Some 7) (Some ModuleKind.NodeNext))
                       (Some "nodecjs") (Some "es2020") false,
                     swcOptions_literal
                       (options_of (Some 7) (Some ModuleKind.NodeNext))
                       (Some "nodecjs") (Some "es2020") true)))
    by (vm_compute; reflexivity).
  split; [exact H|].
  destruct (variants_differ_only_in_tsx _ _ _ _ _ _ _ H)
    as (_ & Hmodule & _ & _ & Htarget & _ & _ & _ & _ & _ & _ & _ & Hplain & Hmarkup).
  split; [exact Hmodule|]. split; [exact Htarget|].
  split; [exact Hplain|exact Hmarkup].
Defined.

(** ** The validation gate *)

Lemma create_after_load require createOptions swcInstance swcDepName :
  loadSwc require createOptions = ([], Ok (swcInstance, swcDepName)) ->
  let options :=
    createSwcOptions (config_options createOptions)
      (nodeModuleEmitKind createOptions) swcInstance swcDepName in
  create require createOptions
  = (calls_of options,
     match outcome options with
     | Ok (nonTsxOptions, tsxOptions) =>
         Ok {| transpile := transpile_with swcInstance nonTsxOptions tsxOptions |}
     | Throw e => Throw e
     end).
Proof.
  intros Hload. cbv zeta. unfold create. rewrite Hload.
  unfold mbind, M_bind. cbn [bind].
  destruct (createSwcOptions _ _ _ _) as [calls [[non tsx]|e]]; cbn;
    rewrite ?app_nil_r; reflexivity.
Qed.




(** ** [endsWith] *)

Lemma substring_all (s : string) : String.substring 0 (String.length s) s = s.
Proof.
  induction s as [|a s IH]; [reflexivity|].
  cbn. by rewrite IH.
Qed.

Lemma substring_skip (p s : string) (n : nat) :
  String.substring (String.length p) n (p +:+ s) = String.substring 0 n s.
Proof.
  induction p as [|a p IH]; [reflexivity|].
  rewrite append_cons. cbn [String.length String.substring]. apply IH.
Qed.

Lemma substring_split (s : string) (k : nat) :
  (k <= String.length s)%nat ->
  s = String.substring 0 k s
      +:+ String.substring k (String.length s - k) s.
Proof.
  revert k. induction s as [|a s IH]; intros k Hk.
  - cbn in Hk. assert (k = 0%nat) as -> by lia. reflexivity.
  - destruct k as [|k].
    + rewrite Nat.sub_0_r, substring_all. reflexivity.
    + cbn [String.length] in *. cbn [String.substring Nat.sub].
      rewrite append_cons. f_equal. apply IH. lia.
Qed.

(** [endsWith s search] holds exactly when [s] is some prefix followed by
    [search]. *)
Lemma endsWith_true (s search : string) :
  endsWith s search = true <-> exists before, s = before +:+ search.
Proof.
  unfold endsWith. split.
  - destruct (Nat.ltb_spec (String.length s) (String.length search)) as [|Hle];
      [done|].
    intros Heq%String.eqb_eq.
    exists (String.substring 0 (String.length s - String.length search) s).
    etrans;
      [apply (substring_split s (String.length s - String.length search)); lia|].
    f_equal.
    replace (String.length s - (String.length s - String.length search))%nat
      with (String.length search) by lia.
    exact Heq.
  - intros [before ->]. rewrite length_append.
    destruct (Nat.ltb_spec (String.length before + String.length search)
                (String.length search)) as [|_]; [lia|].
    replace (String.length before + String.length search - String.length search)%nat
      with (String.length before) by lia.
    rewrite substring_skip, substring_all. apply String.eqb_refl.
Qed.

Example endsWith_examples :
  endsWith "src/App.tsx" ".tsx" = true
  /\ endsWith "src/App.jsx" ".jsx" = true
  /\ endsWith "src/index.ts" ".tsx" = false
  /\ endsWith "tsx" ".tsx" = false
  /\ endsWith ".tsx" ".tsx" = true
  /\ endsWith "a.tsx.map" ".tsx" = false.
Proof. by vm_compute. Qed.

(** ** [create]: loading swc *)

Lemma unresolvableMessage_names_both :
  includes unresolvableMessage "@swc/core"
  /\ includes unresolvableMessage "@swc/wasm"
  /\ includes unresolvableMessage "https://typestrong.org/ts-node/docs/transpilers".
Proof.
  split; [|split].
  - by exists "swc compiler requires either ",
      " or @swc/wasm to be installed as a dependency.  See https://typestrong.org/ts-node/docs/transpilers".
  - by exists "swc compiler requires either @swc/core or ",
      " to be installed as a dependency.  See https://typestrong.org/ts-node/docs/transpilers".
  - by exists "swc compiler requires either @swc/core or @swc/wasm to be installed as a dependency.  See ",
      "".
Qed.

(** C7: with no [swc] option given and [@swc/core] unresolvable, [create]
    throws the error naming [@swc/core], [@swc/wasm] and the documentation
    page when [@swc/wasm] is unresolvable too, before any call to swc; and
    when [@swc/wasm] resolves, the instance loaded from it is the one [create]
    probes, validates against (under the name [@swc/wasm]) and transpiles
    with. *)
Theorem unresolvable_backend_is_reported require createOptions e :
  swc createOptions = SwcAbsent ->
  transpilerConfigLocalResolveHelper createOptions "@swc/core" true = Throw e ->
  (forall e',
      transpilerConfigLocalResolveHelper createOptions "@swc/wasm" true = Throw e' ->
      create require createOptions = ([], Throw (newError unresolvableMessage)))
  /\ includes unresolvableMessage "@swc/core"
  /\ includes unresolvableMessage "@swc/wasm"
  /\ includes unresolvableMessage "https://typestrong.org/ts-node/docs/transpilers"
  /\ (forall swcResolved swcInstance,
        transpilerConfigLocalResolveHelper createOptions "@swc/wasm" true
        = Ok swcResolved ->
        require swcResolved = Ok swcInstance ->
        let options :=
          createSwcOptions (config_options createOptions)
            (nodeModuleEmitKind createOptions) swcInstance "@swc/wasm" in
        loadSwc require createOptions = ([], Ok (swcInstance, "@swc/wasm"))
        /\ create require createOptions
           = (calls_of options,
              match outcome options with
              | Ok (nonTsxOptions, tsxOptions) =>
                  Ok {| transpile :=
                          transpile_with swcInstance nonTsxOptions tsxOptions |}
              | Throw e => Throw e
              end)).
Proof.
  intros Habsent Hcore.
  split; [|split; [|split; [|split]]]; try apply unresolvableMessage_names_both.
  - intros e' Hwasm.
    unfold create, loadSwc. rewrite Habsent.
    unfold lift, try_catch, throw, mbind, M_bind. cbn [bind].
    rewrite Hcore. cbn [bind]. rewrite Hwasm. reflexivity.
  - intros swcResolved swcInstance Hwasm Hrequire.
    assert (Hload : loadSwc require createOptions
                    = ([], Ok (swcInstance, "@swc/wasm"))).
    { unfold loadSwc. rewrite Habsent.
      unfold lift, try_catch, throw, mbind, M_bind. cbn [bind].
      rewrite Hcore. cbn [bind]. rewrite Hwasm. cbn. rewrite Hrequire.
      reflexivity. }
    split; [exact Hload|].
    by apply create_after_load.
Qed.

Lemma unresolvable_backend_is_reported_witness :
  create require_test_swc (createOptions_of SwcAbsent resolve_nothing)
  = ([], Throw (newError unresolvableMessage))
  /\ loadSwc require_test_swc (createOptions_of SwcAbsent resolve_only_wasm)
     = ([], Ok (test_swc swcTargets true true, "@swc/wasm")).
Proof.
  split.
  - destruct (unresolvable_backend_is_reported require_test_swc
                (createOptions_of SwcAbsent resolve_nothing)
                (newError "Cannot find module '@swc/core'") eq_refl eq_refl)
      as (Hboth & _).
    exact (Hboth (newError "Cannot find module '@swc/wasm'") eq_refl).
  - destruct (unresolvable_backend_is_reported require_test_swc
                (createOptions_of SwcAbsent resolve_only_wasm)
                (newError "Cannot find module '@swc/core'") eq_refl eq_refl)
      as (_ & _ & _ & _ & Hfallback).
    exact (proj1 (Hfallback "/node_modules/@swc/wasm/wasm.js"
                    (test_swc swcTargets true true) eq_refl eq_refl)).
Defined.

Lemma loadSwc_calls require createOptions :
  calls_of (loadSwc require createOptions) = [].
Proof.
  unfold loadSwc, lift, try_catch, throw, mbind, M_bind.
  destruct (swc createOptions) as [name| |]; cbn [bind]; [|reflexivity|].
  - destruct (transpilerConfigLocalResolveHelper createOptions name true);
      cbn; [|reflexivity].
    destruct (require _); reflexivity.
  - destruct (transpilerConfigLocalResolveHelper createOptions "@swc/core" true);
      cbn.
    + destruct (require _); reflexivity.
    + destruct (transpilerConfigLocalResolveHelper createOptions "@swc/wasm" true);
        cbn; [|reflexivity].
      destruct (require _); reflexivity.
Qed.

Lemma create_inv require createOptions calls transpiler :
  create require createOptions = (calls, Ok transpiler) ->
  exists swcInstance swcDepName nonTsxOptions tsxOptions,
    loadSwc require createOptions = ([], Ok (swcInstance, swcDepName))
    /\ createSwcOptions (config_options createOptions)
         (nodeModuleEmitKind createOptions) swcInstance swcDepName
       = (calls, Ok (nonTsxOptions, tsxOptions))
    /\ transpiler
       = {| transpile := transpile_with swcInstance nonTsxOptions tsxOptions |}.
Proof.
  intros Hcreate.
  pose proof (loadSwc_calls require createOptions) as Hcalls.
  destruct (loadSwc require createOptions) as [loaded [[swcInstance swcDepName]|e]]
    eqn:Hload; cbn in Hcalls; subst loaded.
  - rewrite (create_after_load _ _ _ _ Hload) in Hcreate. cbv zeta in Hcreate.
    destruct (createSwcOptions _ _ swcInstance swcDepName)
      as [calls' [[non tsx]|e]] eqn:Hoptions; cbn in Hcreate; [|done].
    injection Hcreate as <- <-. by exists swcInstance, swcDepName, non, tsx.
  - unfold create in Hcreate. rewrite Hload in Hcreate. done.
Qed.

Lemma variants_flags compilerOptions nodeModuleEmitKind swcInstance swcDepName
    calls nonTsxOptions tsxOptions :
  createSwcOptions compilerOptions nodeModuleEmitKind swcInstance swcDepName
  = (calls, Ok (nonTsxOptions, tsxOptions)) ->
  ParserConfig.tsx (JscConfig.parser (Options.jsc nonTsxOptions)) = false
  /\ ParserConfig.tsx (JscConfig.parser (Options.jsc tsxOptions)) = true.
Proof.
  intros Hrun.
  by apply createSwcOptions_inv in Hrun as (r & _ & -> & ->).
Qed.

(** ** [transpile] *)

Lemma transpile_with_run swcInstance nonTsxOptions tsxOptions input
    transpileOptions :
  let swcOptions :=
    if endsWith (fileName transpileOptions) ".tsx"
       || endsWith (fileName transpileOptions) ".jsx"
    then tsxOptions else nonTsxOptions in
  let options := WithFilename swcOptions (fileName transpileOptions) in
  transpile_with swcInstance nonTsxOptions tsxOptions input transpileOptions
  = ([{| call_input := input; call_options := options |}],
     match transformSync swcInstance input options with
     | Ok out => Ok {| outputText := code out; sourceMapText := map out |}
     | Throw e => Throw e
     end).
Proof.
  cbv zeta.
  unfold transpile_with, call_transformSync, mbind, M_bind, bind, mret, M_ret, ret.
  by destruct (transformSync swcInstance input _).
Qed.

Lemma markup_extension (fileName : string) :
  endsWith fileName ".tsx" || endsWith fileName ".jsx" = true
  <-> (exists stem, fileName = stem +:+ ".tsx")
      \/ (exists stem, fileName = stem +:+ ".jsx").
Proof. by rewrite orb_true_iff, !endsWith_true. Qed.

(** C5: a transpiler that [create] returned calls swc once per [transpile]
    call, with the input and with one of the two validated objects extended
    by the file name: the markup object exactly when the file name ends in
    [.tsx] or [.jsx], the plain object otherwise; it returns the code and the
    map of swc's output, and throws what swc throws. *)
Theorem transpile_selects_by_extension require createOptions calls transpiler :
  create require createOptions = (calls, Ok transpiler) ->
  exists swcInstance swcDepName nonTsxOptions tsxOptions,
    loadSwc require createOptions = ([], Ok (swcInstance, swcDepName))
    /\ createSwcOptions (config_options createOptions)
         (nodeModuleEmitKind createOptions) swcInstance swcDepName
       = (calls, Ok (nonTsxOptions, tsxOptions))
    /\ ParserConfig.tsx (JscConfig.parser (Options.jsc nonTsxOptions)) = false
    /\ ParserConfig.tsx (JscConfig.parser (Options.jsc tsxOptions)) = true
    /\ (forall input transpileOptions,
          let name := fileName transpileOptions in
          let markup :=
            (exists stem, name = stem +:+ ".tsx")
            \/ (exists stem, name = stem +:+ ".jsx") in
          exists swcOptions,
            (markup -> swcOptions = tsxOptions)
            /\ (~ markup -> swcOptions = nonTsxOptions)
            /\ transpile transpiler input transpileOptions
               = ([{| call_input := input;
                      call_options := WithFilename swcOptions name |}],
                  match transformSync swcInstance input
                          (WithFilename swcOptions name) with
                  | Ok out =>
                      Ok {| outputText := code out; sourceMapText := map out |}
                  | Throw e => Throw e
                  end)).
Proof.
  intros Hcreate.
  apply create_inv in Hcreate
    as (swcInstance & swcDepName & non & tsx & Hload & Hoptions & ->).
  exists swcInstance, swcDepName, non, tsx.
  split; [done|]. split; [done|].
  destruct (variants_flags _ _ _ _ _ _ _ Hoptions) as [Hplain Hmarkup].
  split; [done|]. split; [done|].
  intros input transpileOptions. cbv zeta. cbn [transpile].
  rewrite transpile_with_run. cbv zeta.
  pose proof (markup_extension (fileName transpileOptions)) as Hext.
  destruct (endsWith (fileName transpileOptions) ".tsx"
            || endsWith (fileName transpileOptions) ".jsx").
  - exists tsx. split; [done|]. split; [|done].
    intros Hnot. destruct Hnot. by apply Hext.
  - exists non. split; [|done].
    intros Hmarkup'. apply Hext in Hmarkup'. done.
Qed.

Lemma transpile_selects_by_extension_witness :
  let swcInstance := test_swc swcTargets true true in
  let createOptions := createOptions_of (SwcGiven swcInstance) resolve_nothing in
  let variant :=
    swcOptions_literal (config_options createOptions) None (Some "es2020") in
  let transpiler :=
    {| transpile := transpile_with swcInstance (variant false) (variant true) |} in
  create require_test_swc createOptions
  = ([probe_call 7; validation_call (variant false); validation_call (variant true)],
     Ok transpiler)
  /\ transpile transpiler "<App/>" {| fileName := "src/App.tsx" |}
     = ([{| call_input := "<App/>";
            call_options := WithFilename (variant true) "src/App.tsx" |}],
        Ok {| outputText := "<App/>"; sourceMapText := Some "src/App.tsx" |})
  /\ transpile transpiler "let x = 1" {| fileName := "src/index.ts" |}
     = ([{| call_input := "let x = 1";
            call_options := WithFilename (variant false) "src/index.ts" |}],
        Ok {| outputText := "let x = 1"; sourceMapText := Some "src/index.ts" |}).
Proof.
  cbv zeta.
  set (swcInstance := test_swc swcTargets true true).
  set (createOptions := createOptions_of (SwcGiven swcInstance) resolve_nothing).
  set (variant :=
         swcOptions_literal (config_options createOptions) None (Some "es2020")).
  set (transpiler :=
         {| transpile :=
              transpile_with swcInstance (variant false) (variant true) |}).
  assert (Hcreate :
            create require_test_swc createOptions
            = ([probe_call 7; validation_call (variant false);
                validation_call (variant true)], Ok transpiler))
    by (vm_compute; reflexivity).
  split; [exact Hcreate|].
  destruct (transpile_selects_by_extension _ _ _ _ Hcreate)
    as (swcInstance' & swcDepName & non & tsx & Hload & Hoptions & _ & _ & Hrun).
  injection Hload as <- <-.
  assert (Hoptions' :
            createSwcOptions (config_options createOptions)
              (nodeModuleEmitKind createOptions) swcInstance "swc"
            = ([probe_call 7; validation_call (variant false);
                validation_call (variant true)],
               Ok (variant false, variant true)))
    by (vm_compute; reflexivity).
  rewrite Hoptions' in Hoptions. injection Hoptions as <- <-.
  split.
  - destruct (Hrun "<App/>" {| fileName := "src/App.tsx" |})
      as (swcOptions & Hmarkup & _ & ->).
    rewrite Hmarkup; [reflexivity|].
    left. by exists "src/App".
  - destruct (Hrun "let x = 1" {| fileName := "src/index.ts" |})
      as (swcOptions & _ & Hplain & ->).
    rewrite Hplain; [reflexivity|].
    intros [[stem Hstem]|[stem Hstem]];
      apply (f_equal (fun s => endsWith s ".tsx" || endsWith s ".jsx")) in Hstem;
      cbn [fileName] in Hstem;
      [rewrite (proj2 (endsWith_true (stem +:+ ".tsx") ".tsx")) in Hstem by eauto
      |rewrite (proj2 (endsWith_true (stem +:+ ".jsx") ".jsx")) in Hstem by eauto];
      rewrite ?orb_true_r in Hstem; vm_compute in Hstem; discriminate.
Defined.

(** * Further properties of the module *)

(** ** The probing loop, call by call *)

Lemma probe_down_trace (swcInstance : SwcInstance) (rounds : nat) :
  exists r,
    -1 <= r < Z.of_nat rounds
    /\ probe_down swcInstance rounds
       = (probe_call <$>
            indices_down (Z.of_nat rounds - 1)
              (Z.to_nat (Z.of_nat rounds - Z.max r 0)),
          Ok r).
Proof.
  induction rounds as [|rounds IH].
  - exists (-1). split; [lia|]. reflexivity.
  - rewrite probe_down_succ.
    destruct (accepts swcInstance (at_index swcTargets (Z.of_nat rounds))).
    + exists (Z.of_nat rounds). split; [lia|].
      replace (Z.of_nat (S rounds) - Z.max (Z.of_nat rounds) 0) with 1 by lia.
      replace (Z.of_nat (S rounds) - 1) with (Z.of_nat rounds) by lia.
      reflexivity.
    + destruct IH as (r & Hr & ->). exists r. split; [lia|].
      cbn [calls_of outcome fst snd].
      replace (Z.to_nat (Z.of_nat (S rounds) - Z.max r 0))
        with (S (Z.to_nat (Z.of_nat rounds - Z.max r 0))) by lia.
      replace (Z.of_nat (S rounds) - 1) with (Z.of_nat rounds) by lia.
      reflexivity.
Qed.

(** X1: whatever swc does, the probe never throws: it returns an index [r]
    between [-1] and the index it started from, after calling swc with the
    empty input and the targets at the start index, the one below, and so on
    down to [r] (down to [0] when [r] is [-1]), each once and in that
    order. *)
Theorem probe_never_throws (swcInstance : SwcInstance) (target : option Z) :
  exists r,
    -1 <= r <= requestedIndex target
    /\ requestedIndex target <= 10
    /\ probeTargetIndex swcInstance target
       = (probe_call <$>
            indices_down (requestedIndex target)
              (Z.to_nat (requestedIndex target + 1 - Z.max r 0)),
          Ok r).
Proof.
  destruct (requestedIndex_spec target) as [Hrange _].
  unfold probeTargetIndex, probe_loop.
  destruct (Z.leb_spec 0 (requestedIndex target)) as [_|]; [|lia].
  destruct (probe_down_trace swcInstance (Z.to_nat (requestedIndex target + 1)))
    as (r & Hr & ->).
  exists r. split; [lia|]. split; [lia|].
  replace (Z.of_nat (Z.to_nat (requestedIndex target + 1)) - 1)
    with (requestedIndex target) by lia.
  replace (Z.of_nat (Z.to_nat (requestedIndex target + 1)))
    with (requestedIndex target + 1) by lia.
  reflexivity.
Qed.

(** ** The two tables *)

Lemma targetMapping_index (t : Z) (name : string) :
  targetMapping !! t = Some name ->
  (0 <= t <= 9 \/ t = 99)
  /\ indexOf swcTargets name = (if Z.eqb t 99 then 10 else t).
Proof.
  unfold targetMapping.
  repeat (rewrite lookup_insert; case_decide;
          [subst t; intros [= <-]; split; [lia|reflexivity]|]).
  by rewrite lookup_empty.
Qed.

Lemma swcTargets_entries (i : Z) (name : string) :
  at_index swcTargets i = Some name ->
  indexOf swcTargets name = i
  /\ targetMapping !! (if Z.eqb i 10 then 99 else i) = Some name.
Proof.
  unfold at_index.
  destruct (Z.ltb_spec i 0) as [|Hi]; [done|].
  intros Hlookup.
  assert (Z.to_nat i < 11)%nat as Hlt.
  { apply lookup_lt_Some in Hlookup. exact Hlookup. }
  assert (i = 0 \/ i = 1 \/ i = 2 \/ i = 3 \/ i = 4 \/ i = 5 \/ i = 6
          \/ i = 7 \/ i = 8 \/ i = 9 \/ i = 10) as Hcases by lia.
  repeat (destruct Hcases as [->|Hcases];
          [injection Hlookup as <-; split; reflexivity|]).
  subst i. injection Hlookup as <-. split; reflexivity.
Qed.

(** X2: for every requested level, mapped or not, the index the probe starts
    from lies inside [swcTargets] and holds the name the level maps to
    ([es3] when it has no mapping); conversely every entry of [swcTargets] is
    found by [indexOf] at its own index (the table has no duplicate) and is
    the image of a script target, so every entry can be requested. *)
Theorem requested_index_round_trip (target : option Z) :
  0 <= requestedIndex target <= 10
  /\ at_index swcTargets (requestedIndex target)
     = Some (default "es3" (targetMapping_get target))
  /\ (forall i name,
        at_index swcTargets i = Some name ->
        indexOf swcTargets name = i
        /\ exists t, targetMapping !! t = Some name
                     /\ requestedIndex (Some t) = i).
Proof.
  destruct (requestedIndex_spec target) as [Hrange Hat].
  split; [done|]. split; [done|].
  intros i name Hentry.
  destruct (swcTargets_entries i name Hentry) as [Hindex Hmapped].
  split; [done|].
  exists (if Z.eqb i 10 then 99 else i). split; [done|].
  unfold requestedIndex. cbn [targetMapping_get]. rewrite Hmapped. done.
Qed.

(** X3: [targetMapping] preserves order: of two mapped script targets, the
    newer one maps to the entry further up in [swcTargets]. *)
Theorem targetMapping_preserves_order (t1 t2 : Z) (name1 name2 : string) :
  targetMapping !! t1 = Some name1 ->
  targetMapping !! t2 = Some name2 ->
  t1 < t2 ->
  indexOf swcTargets name1 < indexOf swcTargets name2.
Proof.
  intros [Hrange1 ->]%targetMapping_index [Hrange2 ->]%targetMapping_index Hlt.
  destruct (Z.eqb_spec t1 99), (Z.eqb_spec t2 99); lia.
Qed.

Lemma targetMapping_preserves_order_witness :
  targetMapping !! 9 = Some "es2022"
  /\ targetMapping !! 99 = Some "esnext"
  /\ indexOf swcTargets "es2022" < indexOf swcTargets "esnext".
Proof.
  assert (H1 : targetMapping !! 9 = Some "es2022") by reflexivity.
  assert (H2 : targetMapping !! 99 = Some "esnext") by reflexivity.
  split; [exact H1|]. split; [exact H2|].
  apply (targetMapping_preserves_order 9 99 "es2022" "esnext" H1 H2). lia.
Defined.

(** ** What the probe settles on *)

(** X4: when swc accepts the target the requested level maps to, the probe
    makes that one call and keeps the target: nothing is downgraded, and the
    objects [createSwcOptions] returns carry the mapped name. *)
Theorem probe_keeps_supported_target (swcInstance : SwcInstance) (target : option Z) :
  accepts swcInstance (at_index swcTargets (requestedIndex target)) = true ->
  probeTargetIndex swcInstance target
  = ([probe_call (requestedIndex target)], Ok (requestedIndex target))
  /\ (forall compilerOptions nodeModuleEmitKind swcDepName
             calls nonTsxOptions tsxOptions,
        CompilerOptions.target compilerOptions = target ->
        createSwcOptions compilerOptions nodeModuleEmitKind swcInstance swcDepName
        = (calls, Ok (nonTsxOptions, tsxOptions)) ->
        JscConfig.target (Options.jsc nonTsxOptions)
        = Some (default "es3" (targetMapping_get target))
        /\ JscConfig.target (Options.jsc tsxOptions)
           = Some (default "es3" (targetMapping_get target))).
Proof.
  intros Hacc.
  destruct (requestedIndex_spec target) as [Hrange Hat].
  assert (Hprobe : probeTargetIndex swcInstance target
                   = ([probe_call (requestedIndex target)],
                      Ok (requestedIndex target))).
  { unfold probeTargetIndex, probe_loop.
    destruct (Z.leb_spec 0 (requestedIndex target)) as [_|]; [|lia].
    replace (Z.to_nat (requestedIndex target + 1))
      with (S (Z.to_nat (requestedIndex target))) by lia.
    rewrite probe_down_succ.
    replace (Z.of_nat (Z.to_nat (requestedIndex target)))
      with (requestedIndex target) by lia.
    by rewrite Hacc. }
  split; [exact Hprobe|].
  intros compilerOptions nodeModuleEmitKind swcDepName calls non tsx <- Hrun.
  apply createSwcOptions_inv in Hrun as (r & Hr & -> & ->).
  rewrite Hprobe in Hr. injection Hr as <-.
  split; exact Hat.
Qed.

Lemma probe_keeps_supported_target_witness :
  accepts (test_swc swcTargets true true)
    (at_index swcTargets (requestedIndex (Some 99))) = true
  /\ probeTargetIndex (test_swc swcTargets true true) (Some 99)
     = ([probe_call 10], Ok 10).
Proof.
  assert (H : accepts (test_swc swcTargets true true)
                (at_index swcTargets (requestedIndex (Some 99))) = true)
    by reflexivity.
  split; [exact H|].
  exact (proj1 (probe_keeps_supported_target _ (Some 99) H)).
Defined.

(** X5: a more capable swc never ends up with an older target: if, among the
    targets the probe can try for a request (the table entries from the start
    index down), the first instance accepts every one the second accepts, the
    index it is probed at is at least the second's. *)
Theorem more_capable_swc_probes_no_lower
    (swcInstance swcInstance' : SwcInstance) (target : option Z) (r r' : Z) :
  (forall i,
      0 <= i <= requestedIndex target ->
      accepts swcInstance' (at_index swcTargets i) = true ->
      accepts swcInstance (at_index swcTargets i) = true) ->
  outcome (probeTargetIndex swcInstance target) = Ok r ->
  outcome (probeTargetIndex swcInstance' target) = Ok r' ->
  r' <= r.
Proof.
  intros Hmore Hr Hr'.
  destruct (probeTargetIndex_result swcInstance target)
    as (r0 & Hr0 & Hrange & _ & Hrej & _).
  rewrite Hr in Hr0. injection Hr0 as <-.
  destruct (probeTargetIndex_result swcInstance' target)
    as (r0 & Hr0 & Hrange' & Hok' & _ & _).
  rewrite Hr' in Hr0. injection Hr0 as <-.
  destruct (Z_le_gt_dec r' r) as [|Hgt]; [done|].
  assert (accepts swcInstance (at_index swcTargets r') = true) as Hacc
    by (apply Hmore; [lia|apply Hok'; lia]).
  rewrite Hrej in Hacc by lia. done.
Qed.

Lemma more_capable_swc_probes_no_lower_witness :
  (forall i,
      0 <= i <= requestedIndex (Some 7) ->
      accepts (test_swc ["es3"; "es5"] true true) (at_index swcTargets i) = true ->
      accepts (test_swc ["es3"; "es5"; "es2015"; "es2016"] true true)
        (at_index swcTargets i) = true)
  /\ outcome (probeTargetIndex
                (test_swc ["es3"; "es5"; "es2015"; "es2016"] true true) (Some 7))
     = Ok 3
  /\ outcome (probeTargetIndex (test_swc ["es3"; "es5"] true true) (Some 7))
     = Ok 1
  /\ 1 <= 3.
Proof.
  assert (H : forall i,
             0 <= i <= requestedIndex (Some 7) ->
             accepts (test_swc ["es3"; "es5"] true true) (at_index swcTargets i)
             = true ->
             accepts (test_swc ["es3"; "es5"; "es2015"; "es2016"] true true)
               (at_index swcTargets i) = true).
  { intros i _. destruct (at_index swcTargets i) as [name|];
      unfold accepts; cbn; [|done].
    destruct (bool_decide_reflect (name ∈ ["es3"; "es5"])) as [Hin|]; [|done].
    intros _. decompose_list_elem_of; subst name; reflexivity. }
  split; [exact H|]. split; [reflexivity|]. split; [reflexivity|].
  exact (more_capable_swc_probes_no_lower
           (test_swc ["es3"; "es5"; "es2015"; "es2016"] true true)
           (test_swc ["es3"; "es5"] true true) (Some 7) 3 1 H eq_refl eq_refl).
Defined.

Lemma probe_monotone_in_start_index
    (swcInstance : SwcInstance) (target target' : option Z) (r r' : Z) :
  requestedIndex target <= requestedIndex target' ->
  outcome (probeTargetIndex swcInstance target) = Ok r ->
  outcome (probeTargetIndex swcInstance target') = Ok r' ->
  r <= r'.
Proof.
  intros Hle Hr Hr'.
  destruct (probeTargetIndex_result swcInstance target)
    as (r0 & Hr0 & Hrange & Hok & _ & _).
  rewrite Hr in Hr0. injection Hr0 as <-.
  destruct (probeTargetIndex_result swcInstance target')
    as (r0 & Hr0 & Hrange' & _ & Hrej' & _).
  rewrite Hr' in Hr0. injection Hr0 as <-.
  destruct (Z_le_gt_dec r r') as [|Hgt]; [done|].
  assert (accepts swcInstance (at_index swcTargets r) = true) as Hacc
    by (apply Hok; lia).
  rewrite Hrej' in Hacc by lia. done.
Qed.

(** X6: among the script targets [targetMapping] maps, requesting the newer
    one never yields an older swc target: for mapped targets [t <= t'] the
    index the same swc is probed at for [t] is at most the one for [t'].
    (A target without a mapping starts from [es3] whatever its number, so
    the targets must be mapped.) *)
Theorem newer_request_probes_no_lower
    (swcInstance : SwcInstance) (t t' : Z) (name name' : string) (r r' : Z) :
  targetMapping !! t = Some name ->
  targetMapping !! t' = Some name' ->
  t <= t' ->
  outcome (probeTargetIndex swcInstance (Some t)) = Ok r ->
  outcome (probeTargetIndex swcInstance (Some t')) = Ok r' ->
  r <= r'.
Proof.
  intros Hname Hname' Hle.
  apply (probe_monotone_in_start_index swcInstance (Some t) (Some t')).
  unfold requestedIndex. cbn [targetMapping_get]. rewrite Hname, Hname'.
  cbn [from_option id].
  apply targetMapping_index in Hname as [Hrange ->].
  apply targetMapping_index in Hname' as [Hrange' ->].
  destruct (Z.eqb_spec t 99), (Z.eqb_spec t' 99); lia.
Qed.

Lemma newer_request_probes_no_lower_witness :
  targetMapping !! 1 = Some "es5"
  /\ targetMapping !! 7 = Some "es2020"
  /\ outcome (probeTargetIndex
                (test_swc ["es3"; "es2015"; "es2016"] true true) (Some 1))
     = Ok 0
  /\ outcome (probeTargetIndex
                (test_swc ["es3"; "es2015"; "es2016"] true true) (Some 7))
     = Ok 3
  /\ 0 <= 3.
Proof.
  assert (H1 : targetMapping !! 1 = Some "es5") by reflexivity.
  assert (H7 : targetMapping !! 7 = Some "es2020") by reflexivity.
  assert (Hle : 1 <= 7) by lia.
  split; [exact H1|]. split; [exact H7|].
  split; [reflexivity|]. split; [reflexivity|].
  exact (newer_request_probes_no_lower
           (test_swc ["es3"; "es2015"; "es2016"] true true) 1 7 "es5" "es2020"
           0 3 H1 H7 Hle eq_refl eq_refl).
Defined.

Example unmapped_target_starts_at_es3_whatever_its_number :
  requestedIndex (Some 9) = 9 /\ requestedIndex (Some 10) = 0.
Proof. by vm_compute. Qed.

(** ** [createSwcOptions] as a whole *)

(** X7: [createSwcOptions] calls swc at least twice and at most the start
    index plus three times, hence never more than thirteen times. *)
Theorem createSwcOptions_call_bound compilerOptions nodeModuleEmitKind
    swcInstance swcDepName :
  let n :=
    Z.of_nat (List.length
                (calls_of (createSwcOptions compilerOptions nodeModuleEmitKind
                             swcInstance swcDepName))) in
  2 <= n
  /\ n <= requestedIndex (CompilerOptions.target compilerOptions) + 3
  /\ n <= 13.
Proof.
  cbv zeta.
  destruct (probeTargetIndex_result swcInstance
              (CompilerOptions.target compilerOptions))
    as (r & Hr & Hrange & _ & _ & Hlen).
  destruct (requestedIndex_spec (CompilerOptions.target compilerOptions))
    as [Hindex _].
  rewrite (createSwcOptions_run _ nodeModuleEmitKind _ swcDepName _ Hr).
  cbv zeta.
  destruct (transformSync swcInstance "" (FullOptions (swcOptions_literal _ _ _ false)));
    [destruct (transformSync swcInstance ""
                 (FullOptions (swcOptions_literal _ _ _ true)))|];
    cbn [calls_of fst]; rewrite length_app; cbn [List.length]; lia.
Qed.



(** X9: the dependency name is used in diagnostics only: under two names
    [createSwcOptions] makes the same calls to swc and returns the same
    objects whenever it returns. *)
Theorem dependency_name_only_in_diagnostics compilerOptions nodeModuleEmitKind
    swcInstance swcDepName swcDepName' :
  calls_of (createSwcOptions compilerOptions nodeModuleEmitKind swcInstance
              swcDepName)
  = calls_of (createSwcOptions compilerOptions nodeModuleEmitKind swcInstance
                swcDepName')
  /\ (forall result,
        outcome (createSwcOptions compilerOptions nodeModuleEmitKind swcInstance
                   swcDepName) = Ok result
        <-> outcome (createSwcOptions compilerOptions nodeModuleEmitKind
                       swcInstance swcDepName') = Ok result).
Proof.
  destruct (probeTargetIndex_result swcInstance
              (CompilerOptions.target compilerOptions)) as (r & Hr & _).
  rewrite (createSwcOptions_run _ nodeModuleEmitKind _ swcDepName _ Hr).
  rewrite (createSwcOptions_run _ nodeModuleEmitKind _ swcDepName' _ Hr).
  cbv zeta.
  destruct (transformSync swcInstance "" (FullOptions (swcOptions_literal _ _ _ false)));
    [destruct (transformSync swcInstance ""
                 (FullOptions (swcOptions_literal _ _ _ true)))|];
    cbn; split; try reflexivity; intros result; split; intros [=]; congruence.
Qed.

(** X10: class names are kept by the level that was requested, not by the
    target the probe settled on: in the returned objects [keepClassNames] is
    on exactly when the requested target is ES2016 (3) or newer, and it is off
    when no target is requested. *)
Theorem keepClassNames_follows_requested_level compilerOptions nodeModuleEmitKind
    swcInstance swcDepName calls nonTsxOptions tsxOptions :
  createSwcOptions compilerOptions nodeModuleEmitKind swcInstance swcDepName
  = (calls, Ok (nonTsxOptions, tsxOptions)) ->
  (JscConfig.keepClassNames (Options.jsc nonTsxOptions) = true
   <-> exists t, CompilerOptions.target compilerOptions = Some t /\ 3 <= t)
  /\ JscConfig.keepClassNames (Options.jsc tsxOptions)
     = JscConfig.keepClassNames (Options.jsc nonTsxOptions).
Proof.
  intros Hrun.
  apply createSwcOptions_inv in Hrun as (r & _ & -> & ->).
  split; [|reflexivity].
  cbn. unfold keepClassNames, numGe.
  destruct (CompilerOptions.target compilerOptions) as [t|].
  - rewrite Z.leb_le. split; [eauto|]. by intros (t' & [= <-] & Ht).
  - split; [done|]. by intros (t' & [=] & _).
Qed.

Lemma keepClassNames_follows_requested_level_witness :
  let compilerOptions := options_of (Some 7) (Some ModuleKind.CommonJS) in
  let variant := swcOptions_literal compilerOptions None (Some "es5") in
  createSwcOptions compilerOptions None (test_swc ["es3"; "es5"] true true) "swc"
  = ([probe_call 7; probe_call 6; probe_call 5; probe_call 4; probe_call 3;
      probe_call 2; probe_call 1;
      validation_call (variant false); validation_call (variant true)],
     Ok (variant false, variant true))
  /\ JscConfig.target (Options.jsc (variant false)) = Some "es5"
  /\ JscConfig.keepClassNames (Options.jsc (variant false)) = true.
Proof.
  cbv zeta.
  assert (H : createSwcOptions (options_of (Some 7) (Some ModuleKind.CommonJS))
                None (test_swc ["es3"; "es5"] true true) "swc"
              = ([probe_call 7; probe_call 6; probe_call 5; probe_call 4;
                  probe_call 3; probe_call 2; probe_call 1;
                  validation_call
                    (swcOptions_literal
                       (options_of (Some 7) (Some ModuleKind.CommonJS))
                       None (Some "es5") false);
                  validation_call
                    (swcOptions_literal
                       (options_of (Some 7) (Some ModuleKind.CommonJS))
                       None (Some "es5") true)],
                 Ok (swcOptions_literal
                       (options_of (Some 7) (Some ModuleKind.CommonJS))
                       None (Some "es5") false,
                     swcOptions_literal
                       (options_of (Some 7) (Some ModuleKind.CommonJS))
                       None (Some "es5") true)))
    by (vm_compute; reflexivity).
  split; [exact H|]. split; [reflexivity|].
  apply (proj1 (keepClassNames_follows_requested_level _ _ _ _ _ _ _ H)).
  exists 7. split; [reflexivity|lia].
Defined.

(** X11: the JSX runtime of every built object is [automatic] exactly for the
    emit modes ReactJSX (4) and ReactJSXDev (5) and undefined otherwise; the
    development flag is [true] exactly for ReactJSXDev and undefined
    otherwise, never [false]; and the two pragmas are the compiler options'
    factories in either runtime. *)
Theorem jsx_runtime_selection compilerOptions nodeModuleEmitKind swcTarget isTsx :
  let jsx := CompilerOptions.jsx compilerOptions in
  let react :=
    TransformConfig.react
      (JscConfig.transform
         (Options.jsc
            (swcOptions_literal compilerOptions nodeModuleEmitKind swcTarget
               isTsx))) in
  (ReactConfig.runtime react = Some "automatic"
   <-> jsx = Some JsxEmit.ReactJSX \/ jsx = Some JsxEmit.ReactJSXDev)
  /\ (ReactConfig.runtime react = None
      <-> ~ (jsx = Some JsxEmit.ReactJSX \/ jsx = Some JsxEmit.ReactJSXDev))
  /\ (ReactConfig.development react = Some true
      <-> jsx = Some JsxEmit.ReactJSXDev)
  /\ (ReactConfig.development react = None
      <-> jsx <> Some JsxEmit.ReactJSXDev)
  /\ ReactConfig.pragma react = CompilerOptions.jsxFactory compilerOptions
  /\ ReactConfig.pragmaFrag react
     = CompilerOptions.jsxFragmentFactory compilerOptions.
Proof.
  cbv zeta. cbn. unfold jsxRuntime, jsxDevelopment.
  rewrite <- !numEq_true.
  destruct (numEq (CompilerOptions.jsx compilerOptions) JsxEmit.ReactJSX),
    (numEq (CompilerOptions.jsx compilerOptions) JsxEmit.ReactJSXDev);
    cbn; intuition congruence.
Qed.

(** ** The emit kind *)

(** X12: only the emit kind [nodecjs] makes a difference: with any other
    emit kind, [nodeesm] included, [createSwcOptions] does exactly what it
    does with the emit kind unset. *)
Theorem only_nodecjs_changes_the_options compilerOptions nodeModuleEmitKind
    swcInstance swcDepName :
  nodeModuleEmitKind <> Some "nodecjs" ->
  createSwcOptions compilerOptions nodeModuleEmitKind swcInstance swcDepName
  = createSwcOptions compilerOptions None swcInstance swcDepName.
Proof.
  intros Hkind.
  assert (Hcjs : strEq nodeModuleEmitKind "nodecjs" = false).
  { destruct (strEq nodeModuleEmitKind "nodecjs") eqn:E; [|done].
    by apply strEq_true in E. }
  assert (Hliteral : forall swcTarget isTsx,
             swcOptions_literal compilerOptions nodeModuleEmitKind swcTarget isTsx
             = swcOptions_literal compilerOptions None swcTarget isTsx).
  { intros swcTarget isTsx. unfold swcOptions_literal, moduleType.
    rewrite Hcjs. cbn [strEq]. rewrite !andb_false_r.
    by destruct (isNodeModuleKind _ && strEq nodeModuleEmitKind "nodeesm"). }
  destruct (probeTargetIndex_result swcInstance
              (CompilerOptions.target compilerOptions)) as (r & Hr & _).
  rewrite (createSwcOptions_run _ nodeModuleEmitKind _ swcDepName _ Hr).
  rewrite (createSwcOptions_run _ None _ swcDepName _ Hr).
  cbv zeta. by rewrite !Hliteral.
Qed.

Lemma only_nodecjs_changes_the_options_witness :
  Some "nodeesm" <> Some "nodecjs"
  /\ createSwcOptions (options_of (Some 7) (Some ModuleKind.NodeNext))
       (Some "nodeesm") (test_swc swcTargets true true) "swc"
     = createSwcOptions (options_of (Some 7) (Some ModuleKind.NodeNext))
         None (test_swc swcTargets true true) "swc".
Proof.
  assert (H : Some "nodeesm" <> Some "nodecjs") by discriminate.
  split; [exact H|].
  exact (only_nodecjs_changes_the_options _ (Some "nodeesm") _ _ H).
Defined.

(** X13: for the module kinds Node16 and NodeNext the flag [ignoreDynamic]
    of the module section goes with the module type: it is on exactly when the
    type is [commonjs], and off exactly when the type is [es6]. *)
Theorem node_kinds_ignoreDynamic_iff_commonjs compilerOptions nodeModuleEmitKind
    swcTarget isTsx :
  CompilerOptions.module compilerOptions = Some ModuleKind.Node16
  \/ CompilerOptions.module compilerOptions = Some ModuleKind.NodeNext ->
  exists section,
    Options.module
      (swcOptions_literal compilerOptions nodeModuleEmitKind swcTarget isTsx)
    = Some section
    /\ (ModuleConfig.ignoreDynamic section = true
        <-> ModuleConfig.type section = "commonjs")
    /\ (ModuleConfig.ignoreDynamic section = false
        <-> ModuleConfig.type section = "es6").
Proof.
  intros Hnode. eexists. split; [apply module_section_present|].
  cbn [ModuleConfig.ignoreDynamic ModuleConfig.type].
  unfold moduleType.
  rewrite (proj2 (isNodeModuleKind_true _) Hnode).
  destruct Hnode as [-> | ->]; cbn;
    destruct (strEq nodeModuleEmitKind "nodecjs");
    try destruct (strEq nodeModuleEmitKind "nodeesm"); cbn; split; split; done.
Qed.

Lemma node_kinds_ignoreDynamic_iff_commonjs_witness :
  (CompilerOptions.module (options_of (Some 7) (Some ModuleKind.NodeNext))
   = Some ModuleKind.Node16
   \/ CompilerOptions.module (options_of (Some 7) (Some ModuleKind.NodeNext))
      = Some ModuleKind.NodeNext)
  /\ exists section,
       Options.module
         (swcOptions_literal (options_of (Some 7) (Some ModuleKind.NodeNext))
            (Some "nodecjs") (Some "es2020") false)
       = Some section
       /\ (ModuleConfig.ignoreDynamic section = true
           <-> ModuleConfig.type section = "commonjs")
       /\ (ModuleConfig.ignoreDynamic section = false
           <-> ModuleConfig.type section = "es6").
Proof.
  assert (H : CompilerOptions.module (options_of (Some 7) (Some ModuleKind.NodeNext))
              = Some ModuleKind.Node16
              \/ CompilerOptions.module
                   (options_of (Some 7) (Some ModuleKind.NodeNext))
                 = Some ModuleKind.NodeNext) by (right; reflexivity).
  split; [exact H|].
  exact (node_kinds_ignoreDynamic_iff_commonjs _ (Some "nodecjs") (Some "es2020")
           false H).
Defined.

(** X14: for a module kind other than Node16 and NodeNext (unset included)
    the emit kind has no say in the module type. *)
Theorem emit_kind_ignored_for_explicit_kinds (module : option Z)
    (nodeModuleEmitKind nodeModuleEmitKind' : option string) :
  isNodeModuleKind module = false ->
  moduleType module nodeModuleEmitKind = moduleType module nodeModuleEmitKind'.
Proof.
  intros Hkind. unfold moduleType. by rewrite Hkind.
Qed.

Lemma emit_kind_ignored_for_explicit_kinds_witness :
  isNodeModuleKind (Some ModuleKind.ESNext) = false
  /\ moduleType (Some ModuleKind.ESNext) (Some "nodecjs")
     = moduleType (Some ModuleKind.ESNext) None.
Proof.
  assert (H : isNodeModuleKind (Some ModuleKind.ESNext) = false) by reflexivity.
  split; [exact H|].
  exact (emit_kind_ignored_for_explicit_kinds _ (Some "nodecjs") None H).
Defined.

(** ** Loading swc *)

(** X15: an swc instance passed in is used as it is, under the name [swc]:
    neither the resolver nor [require] has any influence on what [create]
    does. *)
Theorem given_instance_skips_resolution require require'
    createOptions createOptions' instance :
  swc createOptions = SwcGiven instance ->
  swc createOptions' = SwcGiven instance ->
  config_options createOptions = config_options createOptions' ->
  nodeModuleEmitKind createOptions = nodeModuleEmitKind createOptions' ->
  loadSwc require createOptions = ([], Ok (instance, "swc"))
  /\ create require createOptions = create require' createOptions'.
Proof.
  intros Hswc Hswc' Hconfig Hkind.
  assert (Hload : loadSwc require createOptions = ([], Ok (instance, "swc")))
    by (unfold loadSwc; by rewrite Hswc).
  assert (Hload' : loadSwc require' createOptions' = ([], Ok (instance, "swc")))
    by (unfold loadSwc; by rewrite Hswc').
  split; [exact Hload|].
  rewrite (create_after_load _ _ _ _ Hload), (create_after_load _ _ _ _ Hload').
  cbv zeta. by rewrite Hconfig, Hkind.
Qed.

Lemma given_instance_skips_resolution_witness :
  let instance := test_swc swcTargets true true in
  loadSwc require_nothing (createOptions_of (SwcGiven instance) resolve_nothing)
  = ([], Ok (instance, "swc"))
  /\ create require_nothing (createOptions_of (SwcGiven instance) resolve_nothing)
     = create require_test_swc
         (createOptions_of (SwcGiven instance) resolve_everything).
Proof.
  exact (given_instance_skips_resolution require_nothing require_test_swc
           (createOptions_of (SwcGiven (test_swc swcTargets true true))
              resolve_nothing)
           (createOptions_of (SwcGiven (test_swc swcTargets true true))
              resolve_everything)
           (test_swc swcTargets true true) eq_refl eq_refl eq_refl eq_refl).
Defined.

(** X16: with an swc name given, that package alone is tried: when it does
    not resolve, or resolves and does not load, [create] throws what the
    resolver or [require] threw, unchanged and without a call to swc; when it
    loads, the name given is the one used in diagnostics. *)
Theorem named_backend_is_the_only_one_tried require createOptions name :
  swc createOptions = SwcName name ->
  (forall e,
      transpilerConfigLocalResolveHelper createOptions name true = Throw e ->
      create require createOptions = ([], Throw e))
  /\ (forall swcResolved e,
        transpilerConfigLocalResolveHelper createOptions name true
        = Ok swcResolved ->
        require swcResolved = Throw e ->
        create require createOptions = ([], Throw e))
  /\ (forall swcResolved swcInstance,
        transpilerConfigLocalResolveHelper createOptions name true
        = Ok swcResolved ->
        require swcResolved = Ok swcInstance ->
        loadSwc require createOptions = ([], Ok (swcInstance, name))).
Proof.
  intros Hswc. unfold create, loadSwc. rewrite Hswc.
  unfold lift, mbind, M_bind. cbn [bind].
  split; [|split].
  - by intros e ->.
  - intros swcResolved e -> . cbn. by intros ->.
  - intros swcResolved swcInstance ->. cbn. by intros ->.
Qed.

Lemma named_backend_is_the_only_one_tried_witness :
  create require_test_swc (createOptions_of (SwcName "@swc/wasm-web") resolve_only_wasm)
  = ([], Throw (newError "Cannot find module '@swc/wasm-web'"))
  /\ create require_only_wasm (createOptions_of (SwcName "@swc/core") resolve_everything)
     = ([], Throw (newError "Cannot load /node_modules/@swc/core"))
  /\ loadSwc require_only_wasm
       (createOptions_of (SwcName "@swc/wasm") resolve_everything)
     = ([], Ok (test_swc swcTargets true true, "@swc/wasm")).
Proof.
  split; [|split].
  - destruct (named_backend_is_the_only_one_tried require_test_swc
                (createOptions_of (SwcName "@swc/wasm-web") resolve_only_wasm)
                "@swc/wasm-web" eq_refl) as (H & _).
    exact (H _ eq_refl).
  - destruct (named_backend_is_the_only_one_tried require_only_wasm
                (createOptions_of (SwcName "@swc/core") resolve_everything)
                "@swc/core" eq_refl) as (_ & H & _).
    exact (H _ _ eq_refl eq_refl).
  - destruct (named_backend_is_the_only_one_tried require_only_wasm
                (createOptions_of (SwcName "@swc/wasm") resolve_everything)
                "@swc/wasm" eq_refl) as (_ & _ & H).
    exact (H _ _ eq_refl eq_refl).
Defined.

(** X17: with no swc option given, [@swc/core] wins once it resolves:
    loading succeeds or fails with [require] on its path, under the name
    [@swc/core], and [@swc/wasm] is not fallen back to even when loading
    [@swc/core] throws: [create] then throws what [require] threw. *)
Theorem resolved_primary_is_never_replaced require createOptions swcResolved :
  swc createOptions = SwcAbsent ->
  transpilerConfigLocalResolveHelper createOptions "@swc/core" true
  = Ok swcResolved ->
  loadSwc require createOptions
  = ([], match require swcResolved with
         | Ok swcInstance => Ok (swcInstance, "@swc/core")
         | Throw e => Throw e
         end)
  /\ (forall e,
        require swcResolved = Throw e ->
        create require createOptions = ([], Throw e)).
Proof.
  intros Hswc Hcore.
  assert (Hload : loadSwc require createOptions
                  = ([], match require swcResolved with
                         | Ok swcInstance => Ok (swcInstance, "@swc/core")
                         | Throw e => Throw e
                         end)).
  { unfold loadSwc. rewrite Hswc.
    unfold lift, try_catch, mbind, M_bind. cbn [bind]. rewrite Hcore. cbn.
    by destruct (require swcResolved). }
  split; [exact Hload|].
  intros e Hrequire. unfold create. rewrite Hload, Hrequire. reflexivity.
Qed.

Lemma resolved_primary_is_never_replaced_witness :
  loadSwc require_only_wasm (createOptions_of SwcAbsent resolve_everything)
  = ([], Throw (newError "Cannot load /node_modules/@swc/core"))
  /\ create require_only_wasm (createOptions_of SwcAbsent resolve_everything)
     = ([], Throw (newError "Cannot load /node_modules/@swc/core"))
  /\ require_only_wasm "/node_modules/@swc/wasm"
     = Ok (test_swc swcTargets true true).
Proof.
  destruct (resolved_primary_is_never_replaced require_only_wasm
              (createOptions_of SwcAbsent resolve_everything)
              "/node_modules/@swc/core" eq_refl eq_refl) as (Hload & Hcreate).
  split; [exact Hload|]. split; [|reflexivity].
  exact (Hcreate _ eq_refl).
Defined.

(** X18: when [@swc/core] does not resolve and [@swc/wasm] resolves but
    does not load, [create] throws what [require] threw, not the error about
    the two missing packages. *)
Theorem fallback_load_failure_is_fatal require createOptions e swcResolved e' :
  swc createOptions = SwcAbsent ->
  transpilerConfigLocalResolveHelper createOptions "@swc/core" true = Throw e ->
  transpilerConfigLocalResolveHelper createOptions "@swc/wasm" true
  = Ok swcResolved ->
  require swcResolved = Throw e' ->
  create require createOptions = ([], Throw e').
Proof.
  intros Hswc Hcore Hwasm Hrequire.
  unfold create, loadSwc. rewrite Hswc.
  unfold lift, try_catch, mbind, M_bind. cbn [bind].
  rewrite Hcore. cbn [bind]. rewrite Hwasm. cbn. by rewrite Hrequire.
Qed.

Lemma fallback_load_failure_is_fatal_witness :
  create require_nothing (createOptions_of SwcAbsent resolve_only_wasm)
  = ([], Throw (newError "Cannot load /node_modules/@swc/wasm/wasm.js")).
Proof.
  exact (fallback_load_failure_is_fatal require_nothing
           (createOptions_of SwcAbsent resolve_only_wasm)
           (newError "Cannot find module '@swc/core'")
           "/node_modules/@swc/wasm/wasm.js"
           (newError "Cannot load /node_modules/@swc/wasm/wasm.js")
           eq_refl eq_refl eq_refl eq_refl).
Defined.

(** ** What [create] asks of swc *)

Lemma probe_down_calls (swcInstance : SwcInstance) (rounds : nat) (c : Call) :
  c ∈ calls_of (probe_down swcInstance rounds) ->
  exists i, 0 <= i < Z.of_nat rounds /\ c = probe_call i.
Proof.
  induction rounds as [|rounds IH]; [by intros ?%elem_of_nil|].
  rewrite probe_down_succ.
  destruct (accepts swcInstance (at_index swcTargets (Z.of_nat rounds)));
    cbn [calls_of fst].
  - intros ->%list_elem_of_singleton. exists (Z.of_nat rounds). split; [lia|done].
  - intros [->|Hc]%elem_of_cons.
    + exists (Z.of_nat rounds). split; [lia|done].
    + destruct (IH Hc) as (i & Hi & ->). exists i. split; [lia|done].
Qed.

Lemma probeTargetIndex_calls (swcInstance : SwcInstance) (target : option Z)
    (c : Call) :
  c ∈ calls_of (probeTargetIndex swcInstance target) ->
  call_input c = ""
  /\ exists name, name ∈ swcTargets /\ call_options c = JscTargetOnly (Some name).
Proof.
  destruct (requestedIndex_spec target) as [Hrange _].
  unfold probeTargetIndex, probe_loop.
  destruct (Z.leb_spec 0 (requestedIndex target)) as [_|]; [|lia].
  intros (i & Hi & ->)%probe_down_calls.
  split; [reflexivity|].
  destruct (swcTargets_at i) as [name Hname]; [lia|].
  exists name. split; [|by cbn; rewrite Hname].
  unfold at_index in Hname.
  destruct (Z.ltb i 0); [done|]. by eapply list_elem_of_lookup_2.
Qed.

(** X19: during [create] swc only ever compiles the empty input: every call
    it receives is either a probe for one target of [swcTargets] or the
    validation of a full option object; no call carries a file name. *)
Theorem setup_compiles_only_empty_input require createOptions (c : Call) :
  c ∈ calls_of (create require createOptions) ->
  call_input c = ""
  /\ ((exists name,
          name ∈ swcTargets /\ call_options c = JscTargetOnly (Some name))
      \/ (exists swcOptions, call_options c = FullOptions swcOptions)).
Proof.
  pose proof (loadSwc_calls require createOptions) as Hcalls.
  destruct (loadSwc require createOptions) as [loaded [[swcInstance swcDepName]|e]]
    eqn:Hload; cbn in Hcalls; subst loaded.
  - rewrite (create_after_load _ _ _ _ Hload). cbv zeta. cbn [calls_of fst].
    destruct (probeTargetIndex_result swcInstance
                (CompilerOptions.target (config_options createOptions)))
      as (r & Hr & _).
    rewrite (createSwcOptions_run _ (nodeModuleEmitKind createOptions) _
               swcDepName _ Hr). cbv zeta.
    assert (Hvalidation : forall swcOptions,
               call_input (validation_call swcOptions) = ""
               /\ ((exists name,
                      name ∈ swcTargets
                      /\ call_options (validation_call swcOptions)
                         = JscTargetOnly (Some name))
                   \/ (exists swcOptions',
                         call_options (validation_call swcOptions)
                         = FullOptions swcOptions'))).
    { intros swcOptions. split; [reflexivity|]. right. by eexists. }
    destruct (transformSync swcInstance ""
                (FullOptions (swcOptions_literal _ _ _ false)));
      [destruct (transformSync swcInstance ""
                   (FullOptions (swcOptions_literal _ _ _ true)))|];
      cbn [calls_of fst]; intros [Hc|Hc]%elem_of_app;
      try (destruct (probeTargetIndex_calls _ _ _ Hc) as [Hinput Hoptions];
           split; [exact Hinput|by left]);
      decompose_list_elem_of; subst c; apply Hvalidation.
  - unfold create. rewrite Hload. cbn. by intros ?%elem_of_nil.
Qed.

Lemma setup_compiles_only_empty_input_witness :
  let createOptions :=
    createOptions_of (SwcGiven (test_swc ["es3"; "es5"] true true)) resolve_nothing in
  probe_call 3 ∈ calls_of (create require_nothing createOptions)
  /\ call_input (probe_call 3) = ""
  /\ ((exists name,
          name ∈ swcTargets
          /\ call_options (probe_call 3) = JscTargetOnly (Some name))
      \/ (exists swcOptions, call_options (probe_call 3) = FullOptions swcOptions)).
Proof.
  cbv zeta.
  assert (H : probe_call 3
              ∈ calls_of (create require_nothing
                            (createOptions_of
                               (SwcGiven (test_swc ["es3"; "es5"] true true))
                               resolve_nothing))).
  { assert (Hcalls : calls_of (create require_nothing
                                 (createOptions_of
                                    (SwcGiven (test_swc ["es3"; "es5"] true true))
                                    resolve_nothing))
                     = [probe_call 7; probe_call 6; probe_call 5; probe_call 4;
                        probe_call 3; probe_call 2; probe_call 1;
                        validation_call
                          (swcOptions_literal
                             (options_of (Some 7) (Some ModuleKind.CommonJS))
                             None (Some "es5") false);
                        validation_call
                          (swcOptions_literal
                             (options_of (Some 7) (Some ModuleKind.CommonJS))
                             None (Some "es5") true)])
      by (vm_compute; reflexivity).
    rewrite Hcalls. do 4 apply list_elem_of_further. apply list_elem_of_here. }
  split; [exact H|].
  exact (setup_compiles_only_empty_input _ _ _ H).
Defined.

(** X20: a value thrown by swc at validation that has no message (such as
    [null]) is reported all the same, for the plain object and, when the plain
    object passed, for the markup object: the error of [createSwcOptions]
    then ends in the text [undefined]. *)
Theorem validation_error_without_message compilerOptions nodeModuleEmitKind
    swcInstance swcDepName r isTsx e :
  outcome (probeTargetIndex swcInstance (CompilerOptions.target compilerOptions))
  = Ok r ->
  let variant :=
    swcOptions_literal compilerOptions nodeModuleEmitKind (at_index swcTargets r) in
  (isTsx = true ->
   exists out, transformSync swcInstance "" (FullOptions (variant false)) = Ok out) ->
  transformSync swcInstance "" (FullOptions (variant isTsx)) = Throw e ->
  message e = None ->
  outcome (createSwcOptions compilerOptions nodeModuleEmitKind swcInstance
             swcDepName)
  = Throw (newError (swcDepName +:+ validationAdvice +:+ "undefined")).
Proof.
  intros Hr. cbv zeta. intros Hplain Hthrow Hmessage.
  rewrite (createSwcOptions_run _ nodeModuleEmitKind _ swcDepName _ Hr).
  cbv zeta.
  assert (Htext : validationMessage swcDepName e
                  = swcDepName +:+ validationAdvice +:+ "undefined").
  { rewrite validationMessage_shape. unfold messageText. by rewrite Hmessage. }
  destruct isTsx.
  - destruct (Hplain eq_refl) as [out ->]. rewrite Hthrow. cbn. by rewrite Htext.
  - rewrite Hthrow. cbn. by rewrite Htext.
Qed.

Lemma validation_error_without_message_witness :
  outcome (createSwcOptions (options_of (Some 7) (Some ModuleKind.CommonJS)) None
             swc_throwing_no_message "@swc/wasm")
  = Throw (newError ("@swc/wasm" +:+ validationAdvice +:+ "undefined"))
  /\ outcome (createSwcOptions (options_of (Some 1) (Some ModuleKind.NodeNext))
                (Some "nodecjs") swc_throwing_no_message_on_tsx "swc")
     = Throw (newError ("swc" +:+ validationAdvice +:+ "undefined")).
Proof.
  split.
  - apply (validation_error_without_message
             (options_of (Some 7) (Some ModuleKind.CommonJS)) None
             swc_throwing_no_message "@swc/wasm" 7 false {| message := None |}
             eq_refl); [discriminate|reflexivity|reflexivity].
  - apply (validation_error_without_message
             (options_of (Some 1) (Some ModuleKind.NodeNext)) (Some "nodecjs")
             swc_throwing_no_message_on_tsx "swc" 1 true {| message := None |}
             eq_refl); [|reflexivity|reflexivity].
    intros _. eexists. reflexivity.
Defined.

(** X21: once swc is loaded, [create] succeeds exactly when swc accepts the
    two full option objects built for the target the probe ended at; the
    answers swc gave to the probes cannot make it fail. *)
Theorem create_succeeds_iff_validation_passes require createOptions
    swcInstance swcDepName r :
  loadSwc require createOptions = ([], Ok (swcInstance, swcDepName)) ->
  outcome (probeTargetIndex swcInstance
             (CompilerOptions.target (config_options createOptions)))
  = Ok r ->
  let variant :=
    swcOptions_literal (config_options createOptions)
      (nodeModuleEmitKind createOptions) (at_index swcTargets r) in
  (exists transpiler, outcome (create require createOptions) = Ok transpiler)
  <-> ((exists out,
          transformSync swcInstance "" (FullOptions (variant false)) = Ok out)
       /\ (exists out,
             transformSync swcInstance "" (FullOptions (variant true)) = Ok out)).
Proof.
  intros Hload Hr. cbv zeta.
  rewrite (create_after_load _ _ _ _ Hload). cbv zeta. cbn [outcome snd].
  rewrite (createSwcOptions_run _ (nodeModuleEmitKind createOptions) _
             swcDepName _ Hr). cbv zeta.
  destruct (transformSync swcInstance "" (FullOptions (swcOptions_literal _ _ _ false)))
    as [out|e].
  - destruct (transformSync swcInstance ""
                (FullOptions (swcOptions_literal _ _ _ true))) as [out'|e];
      cbn.
    + split; [eauto|]. intros _. by eexists.
    + split; [by intros [? ?]|]. by intros [_ [? ?]].
  - cbn. split; [by intros [? ?]|]. by intros [[? ?] _].
Qed.

Lemma create_succeeds_iff_validation_passes_witness :
  let createOptions :=
    createOptions_of (SwcGiven (test_swc [] true true)) resolve_nothing in
  outcome (probeTargetIndex (test_swc [] true true) (Some 7)) = Ok (-1)
  /\ exists transpiler,
       outcome (create require_nothing createOptions) = Ok transpiler.
Proof.
  cbv zeta.
  assert (Hr : outcome (probeTargetIndex (test_swc [] true true)
                          (CompilerOptions.target
                             (config_options
                                (createOptions_of
                                   (SwcGiven (test_swc [] true true))
                                   resolve_nothing))))
               = Ok (-1)) by reflexivity.
  split; [exact Hr|].
  apply (create_succeeds_iff_validation_passes require_nothing
           (createOptions_of (SwcGiven (test_swc [] true true)) resolve_nothing)
           (test_swc [] true true) "swc" (-1) eq_refl Hr).
  split; eexists; reflexivity.
Defined.

(** ** [transpile] after [create] *)

Lemma createSwcOptions_accepted compilerOptions nodeModuleEmitKind swcInstance
    swcDepName calls nonTsxOptions tsxOptions :
  createSwcOptions compilerOptions nodeModuleEmitKind swcInstance swcDepName
  = (calls, Ok (nonTsxOptions, tsxOptions)) ->
  (exists out, transformSync swcInstance "" (FullOptions nonTsxOptions) = Ok out)
  /\ (exists out, transformSync swcInstance "" (FullOptions tsxOptions) = Ok out)
  /\ validation_call nonTsxOptions ∈ calls
  /\ validation_call tsxOptions ∈ calls.
Proof.
  destruct (probeTargetIndex_result swcInstance
              (CompilerOptions.target compilerOptions)) as (r & Hr & _).
  rewrite (createSwcOptions_run _ nodeModuleEmitKind _ swcDepName _ Hr).
  cbv zeta.
  destruct (transformSync swcInstance "" (FullOptions (swcOptions_literal _ _ _ false)))
    as [out|] eqn:Hplain; [|done].
  destruct (transformSync swcInstance "" (FullOptions (swcOptions_literal _ _ _ true)))
    as [out'|] eqn:Htsx; [|done].
  intros [= <- <- <-].
  split; [eauto|]. split; [eauto|].
  split; apply elem_of_app; right.
  - apply list_elem_of_here.
  - apply list_elem_of_further, list_elem_of_here.
Qed.

(** X22: a transpiler returned by [create] hands swc, besides the file name,
    only an option object that swc accepted during [create]: the object of
    every [transpile] call is one whose validation call is among the calls of
    [create], and that validation succeeded. *)
Theorem transpile_uses_validated_options require createOptions calls transpiler
    input transpileOptions :
  create require createOptions = (calls, Ok transpiler) ->
  exists swcInstance swcDepName swcOptions,
    loadSwc require createOptions = ([], Ok (swcInstance, swcDepName))
    /\ calls_of (transpile transpiler input transpileOptions)
       = [{| call_input := input;
             call_options :=
               WithFilename swcOptions (fileName transpileOptions) |}]
    /\ validation_call swcOptions ∈ calls
    /\ exists out,
         transformSync swcInstance "" (FullOptions swcOptions) = Ok out.
Proof.
  intros Hcreate.
  apply create_inv in Hcreate
    as (swcInstance & swcDepName & non & tsx & Hload & Hoptions & ->).
  destruct (createSwcOptions_accepted _ _ _ _ _ _ _ Hoptions)
    as (Hplain & Htsx & Hin & Hin').
  exists swcInstance, swcDepName.
  cbn [transpile]. rewrite transpile_with_run. cbv zeta. cbn [calls_of fst].
  destruct (endsWith (fileName transpileOptions) ".tsx"
            || endsWith (fileName transpileOptions) ".jsx").
  - by exists tsx.
  - by exists non.
Qed.

Lemma transpile_uses_validated_options_witness :
  let swcInstance := test_swc swcTargets true true in
  let createOptions := createOptions_of (SwcGiven swcInstance) resolve_nothing in
  let variant :=
    swcOptions_literal (config_options createOptions) None (Some "es2020") in
  create require_nothing createOptions
  = ([probe_call 7; validation_call (variant false); validation_call (variant true)],
     Ok {| transpile := transpile_with swcInstance (variant false) (variant true) |})
  /\ exists swcInstance' swcDepName swcOptions,
       loadSwc require_nothing createOptions = ([], Ok (swcInstance', swcDepName))
       /\ calls_of (transpile
                      {| transpile :=
                           transpile_with swcInstance (variant false) (variant true) |}
                      "<App/>" {| fileName := "src/App.jsx" |})
          = [{| call_input := "<App/>";
                call_options := WithFilename swcOptions "src/App.jsx" |}]
       /\ validation_call swcOptions
          ∈ [probe_call 7; validation_call (variant false);
             validation_call (variant true)]
       /\ exists out,
            transformSync swcInstance' "" (FullOptions swcOptions) = Ok out.
Proof.
  cbv zeta.
  assert (H : create require_nothing
                (createOptions_of (SwcGiven (test_swc swcTargets true true))
                   resolve_nothing)
              = ([probe_call 7;
                  validation_call
                    (swcOptions_literal
                       (config_options
                          (createOptions_of
                             (SwcGiven (test_swc swcTargets true true))
                             resolve_nothing))
                       None (Some "es2020") false);
                  validation_call
                    (swcOptions_literal
                       (config_options
                          (createOptions_of
                             (SwcGiven (test_swc swcTargets true true))
                             resolve_nothing))
                       None (Some "es2020") true)],
                 Ok {| transpile :=
                         transpile_with (test_swc swcTargets true true)
                           (swcOptions_literal
                              (config_options
                                 (createOptions_of
                                    (SwcGiven (test_swc swcTargets true true))
                                    resolve_nothing))
                              None (Some "es2020") false)
                           (swcOptions_literal
                              (config_options
                                 (createOptions_of
                                    (SwcGiven (test_swc swcTargets true true))
                                    resolve_nothing))
                              None (Some "es2020") true) |}))
    by (vm_compute; reflexivity).
  split; [exact H|].
  exact (transpile_uses_validated_options _ _ _ _ "<App/>"
           {| fileName := "src/App.jsx" |} H).
Defined.

(** ** Flags that pass through *)

(** X23: in the objects [createSwcOptions] returns, an unset compiler flag
    stays unset for source maps, external helpers, decorators and decorator
    metadata, which are handed over as they are, while interop is negated
    with unset counting as off: [noInterop] is on unless [esModuleInterop] is
    explicitly [true]. *)
Theorem flags_pass_through compilerOptions nodeModuleEmitKind swcInstance
    swcDepName calls nonTsxOptions tsxOptions swcOptions :
  createSwcOptions compilerOptions nodeModuleEmitKind swcInstance swcDepName
  = (calls, Ok (nonTsxOptions, tsxOptions)) ->
  swcOptions = nonTsxOptions \/ swcOptions = tsxOptions ->
  Options.sourceMaps swcOptions = CompilerOptions.sourceMap compilerOptions
  /\ JscConfig.externalHelpers (Options.jsc swcOptions)
     = CompilerOptions.importHelpers compilerOptions
  /\ ParserConfig.decorators (JscConfig.parser (Options.jsc swcOptions))
     = CompilerOptions.experimentalDecorators compilerOptions
  /\ TransformConfig.decoratorMetadata (JscConfig.transform (Options.jsc swcOptions))
     = CompilerOptions.emitDecoratorMetadata compilerOptions
  /\ exists section,
       Options.module swcOptions = Some section
       /\ (ModuleConfig.noInterop section = false
           <-> CompilerOptions.esModuleInterop compilerOptions = Some true).
Proof.
  intros Hrun Hone.
  apply createSwcOptions_inv in Hrun as (r & _ & -> & ->).
  destruct Hone as [-> | ->];
    (do 4 (split; [reflexivity|]);
     eexists; split; [apply module_section_present|];
     cbn [ModuleConfig.noInterop];
     destruct (CompilerOptions.esModuleInterop compilerOptions) as [[]|];
     cbn; split; congruence).
Qed.

Lemma flags_pass_through_witness :
  let compilerOptions := options_of (Some 7) (Some ModuleKind.CommonJS) in
  let variant := swcOptions_literal compilerOptions None (Some "es2020") in
  createSwcOptions compilerOptions None (test_swc swcTargets true true) "swc"
  = ([probe_call 7; validation_call (variant false); validation_call (variant true)],
     Ok (variant false, variant true))
  /\ Options.sourceMaps (variant true) = None
  /\ Options.module (variant true)
     = Some {| ModuleConfig.noInterop := true;
               ModuleConfig.type := "commonjs";
               ModuleConfig.strictMode := true;
               ModuleConfig.ignoreDynamic := false |}.
Proof.
  cbv zeta.
  assert (H : createSwcOptions (options_of (Some 7) (Some ModuleKind.CommonJS))
                None (test_swc swcTargets true true) "swc"
              = ([probe_call 7;
                  validation_call
                    (swcOptions_literal
                       (options_of (Some 7) (Some ModuleKind.CommonJS))
                       None (Some "es2020") false);
                  validation_call
                    (swcOptions_literal
                       (options_of (Some 7) (Some ModuleKind.CommonJS))
                       None (Some "es2020") true)],
                 Ok (swcOptions_literal
                       (options_of (Some 7) (Some ModuleKind.CommonJS))
                       None (Some "es2020") false,
                     swcOptions_literal
                       (options_of (Some 7) (Some ModuleKind.CommonJS))
                       None (Some "es2020") true)))
    by (vm_compute; reflexivity).
  split; [exact H|].
  destruct (flags_pass_through _ _ _ _ _ _ _ _ H (or_intror eq_refl))
    as (Hmaps & _).
  split; [exact Hmaps|reflexivity].
Defined.
